(** * Notion API models: validation and serialisation of the pydantic schemas

    The repository declares its data model as pydantic classes.  What a
    class does is fixed by its field declarations: [model_validate] reads
    each declared field from a raw object, in declaration order, and
    [model_dump] writes them back.  This development embeds

    - the raw values the validators read ([json]),
    - the validators and serialisers pydantic attaches to the field types
      the repository uses ([Module pydantic]),
    - the classes of [api/base.py], [api/comments.py],
      [endpoints/comments.py] and [objects/properties/page_property.py],
      each as a record with its [validate] ([model_validate]) and [dump]
      ([model_dump]),

    and proves the properties the specification states about them. *)

From Stdlib Require Import ZArith String Ascii List Bool Floats Lia Eqdep_dec.
Import ListNotations.

Set Warnings "-register-all".

Local Open Scope string_scope.
Local Open Scope Z_scope.
Local Open Scope list_scope.

(* ================================================================== *)
(** ** Raw values *)

(** A parsed JSON document.  Integers and floats are distinct, as they are
    for the validators; an object keeps its members in order. *)
Inductive json : Type :=
| JNull
| JBool (b : bool)
| JInt (n : Z)
| JFloat (x : float)
| JStr (s : string)
| JArr (items : list json)
| JObj (members : list (string * json)).

Definition obj : Type := list (string * json).

(** [o.get(k)]: keys of a well-formed object are unique, so the first
    binding is the binding. *)
Fixpoint lookup (k : string) (o : obj) : option json :=
  match o with
  | [] => None
  | (k', v) :: o' => if String.eqb k k' then Some v else lookup k o'
  end.

(* ================================================================== *)
(** ** Validation results *)

(** The [type] of the first line of a pydantic [ValidationError]. *)
Inductive ErrorType : Type :=
| missing
| model_type
| model_attributes_type
| list_type
| string_type
| bool_type
| bool_parsing
| int_type
| int_parsing
| int_from_float
| float_type
| float_parsing
| finite_number
| greater_than
| less_than_equal
| literal_error
| union_tag_not_found
| union_tag_invalid
| value_error (msg : string).

Inductive result (A : Type) : Type :=
| Ok (a : A)
| Err (e : ErrorType).

Arguments Ok {A} a.
Arguments Err {A} e.

Definition bind {A B : Type} (r : result A) (k : A -> result B) : result B :=
  match r with
  | Ok a => k a
  | Err e => Err e
  end.

Definition fmap {A B : Type} (f : A -> B) (r : result A) : result B :=
  match r with
  | Ok a => Ok (f a)
  | Err e => Err e
  end.

Notation "x <- e ;; k" := (bind e (fun x => k))
  (at level 61, e at next level, right associativity).

Definition is_ok {A : Type} (r : result A) : bool :=
  match r with
  | Ok _ => true
  | Err _ => false
  end.

(** The error taxonomy of the specification (section 7), and how the error
    types of the validators fall into it: an input whose discriminator has
    no registered schema is an unknown variant, every other validation
    failure is a shape mismatch.  No validator of the repository raises an
    invariant violation. *)
Inductive SpecError : Type :=
| UnknownVariant
| ShapeMismatch
| InvariantViolation.

Definition classify (e : ErrorType) : SpecError :=
  match e with
  | union_tag_invalid => UnknownVariant
  | _ => ShapeMismatch
  end.

(** A type with a wire form: [decode] validates, [encode] serialises
    (under the options of the dump it takes part in). *)
Class Codec (A : Type) : Type := {
  decode : json -> result A;
  encode : A -> json
}.

(** A codec is lawful when validating a serialised value gives it back,
    and no value is serialised as [None]. *)
Class Lawful (A : Type) `{Codec A} : Prop := {
  decode_encode : forall a : A, decode (encode a) = Ok a;
  encode_not_null : forall a : A, encode a <> JNull
}.

(** What pydantic and the Python library supply and this development takes
    as given: the string formats ([datetime], [UUID], [EmailStr],
    [HttpUrl]) with their validators and serialisers, and the parsers that
    lax mode applies to a string met where a number is expected. *)
Class Formats : Type := {
  datetime : Type;
  UUID : Type;
  EmailStr : Type;
  HttpUrl : Type;
  datetime_codec :: Codec datetime;
  UUID_codec :: Codec UUID;
  EmailStr_codec :: Codec EmailStr;
  HttpUrl_codec :: Codec HttpUrl;
  str_as_int : string -> option Z;
  str_as_float : string -> option float
}.

Class FormatsLaws `{Formats} : Prop := {
  datetime_lawful :: Lawful datetime;
  UUID_lawful :: Lawful UUID;
  EmailStr_lawful :: Lawful EmailStr;
  HttpUrl_lawful :: Lawful HttpUrl
}.

(* ================================================================== *)
(** ** The validators of pydantic, in lax mode, on JSON input *)

Module pydantic.

Fixpoint traverse {A B : Type} (f : A -> result B) (l : list A)
  : result (list B) :=
  match l with
  | [] => Ok []
  | a :: l' =>
      b <- f a ;;
      bs <- traverse f l' ;;
      Ok (b :: bs)
  end.

(** [u8::to_ascii_lowercase] *)
Definition ascii_lower (c : ascii) : ascii :=
  let n := N_of_ascii c in
  if ((65 <=? n) && (n <=? 90))%N then ascii_of_N (n + 32) else c.

Fixpoint lower (s : string) : string :=
  match s with
  | EmptyString => EmptyString
  | String c s' => String (ascii_lower c) (lower s')
  end.

Definition eq_ignore_ascii_case (s t : string) : bool :=
  String.eqb (lower s) (lower t).

Definition str_as_bool (s : string) : result bool :=
  if String.eqb s "0"
     || eq_ignore_ascii_case s "f"
     || eq_ignore_ascii_case s "n"
     || eq_ignore_ascii_case s "no"
     || eq_ignore_ascii_case s "off"
     || eq_ignore_ascii_case s "false"
  then Ok false
  else if String.eqb s "1"
     || eq_ignore_ascii_case s "t"
     || eq_ignore_ascii_case s "y"
     || eq_ignore_ascii_case s "on"
     || eq_ignore_ascii_case s "yes"
     || eq_ignore_ascii_case s "true"
  then Ok true
  else Err bool_parsing.

Definition int_as_bool (n : Z) : result bool :=
  if n =? 0 then Ok false
  else if n =? 1 then Ok true
  else Err bool_parsing.

(** A float with no fractional part, as an integer. *)
Definition float_as_int (x : float) : result Z :=
  match Prim2SF x with
  | S754_zero _ => Ok 0
  | S754_finite s m e =>
      let sign (n : Z) := if s then - n else n in
      if 0 <=? e then Ok (sign (Z.pos m * 2 ^ e))
      else if Z.pos m mod 2 ^ (- e) =? 0
           then Ok (sign (Z.pos m / 2 ^ (- e)))
           else Err int_from_float
  | S754_infinity _ | S754_nan => Err finite_number
  end.

(** An integer as the nearest float. *)
Definition int_as_float (n : Z) : float :=
  SF2Prim (binary_normalize prec emax n 0 false).

Definition validate_str (j : json) : result string :=
  match j with
  | JStr s => Ok s
  | _ => Err string_type
  end.

Definition validate_bool (j : json) : result bool :=
  match j with
  | JBool b => Ok b
  | JStr s => str_as_bool s
  | JInt n => int_as_bool n
  | JFloat x =>
      match float_as_int x with
      | Ok n => int_as_bool n
      | Err _ => Err bool_type
      end
  | _ => Err bool_type
  end.

Section numbers.
Context `{Formats}.

Definition validate_int (j : json) : result Z :=
  match j with
  | JInt n => Ok n
  | JBool b => Ok (if b then 1 else 0)
  | JFloat x => float_as_int x
  | JStr s =>
      match str_as_int s with
      | Some n => Ok n
      | None => Err int_parsing
      end
  | _ => Err int_type
  end.

Definition validate_float (j : json) : result float :=
  match j with
  | JFloat x => Ok x
  | JInt n => Ok (int_as_float n)
  | JBool b => Ok (if b then 1%float else 0%float)
  | JStr s =>
      match str_as_float s with
      | Some x => Ok x
      | None => Err float_parsing
      end
  | _ => Err float_type
  end.
End numbers.

(** [Field(le=...)] and [Field(gt=...)] on an integer *)
Definition le (bound n : Z) : result Z :=
  if n <=? bound then Ok n else Err less_than_equal.

Definition gt (bound n : Z) : result Z :=
  if bound <? n then Ok n else Err greater_than.

(** [Optional[T]] *)
Definition nullable {A : Type} (v : json -> result A) (j : json)
  : result (option A) :=
  match j with
  | JNull => Ok None
  | _ => fmap Some (v j)
  end.

(** [List[T]] *)
Definition validate_list {A : Type} (v : json -> result A) (j : json)
  : result (list A) :=
  match j with
  | JArr items => traverse v items
  | _ => Err list_type
  end.

(** [Literal["tag"]]: a field that can hold one value only. *)
Inductive Literal (tag : string) : Set := Lit.

Definition validate_Literal (tag : string) (j : json)
  : result (Literal tag) :=
  match j with
  | JStr s => if String.eqb s tag then Ok (Lit tag) else Err literal_error
  | _ => Err literal_error
  end.

(** [Literal[...]] over a table of strings *)
Definition validate_literal (table : list string) (j : json)
  : result string :=
  match j with
  | JStr s =>
      if existsb (String.eqb s) table then Ok s else Err literal_error
  | _ => Err literal_error
  end.

(** A model is validated from an object. *)
Definition model_fields (j : json) : result obj :=
  match j with
  | JObj o => Ok o
  | _ => Err model_type
  end.

(** A field declared with [...] (or with no default) *)
Definition required {A : Type} (k : string) (v : json -> result A)
           (o : obj) : result A :=
  match lookup k o with
  | Some j => v j
  | None => Err missing
  end.

(** A field declared with a default, which is not validated *)
Definition with_default {A : Type} (k : string) (v : json -> result A)
           (d : A) (o : obj) : result A :=
  match lookup k o with
  | Some j => v j
  | None => Ok d
  end.

(** [Field(discriminator="type")] over a union: the table maps each tag
    to the validator of the class that declares it. *)
Fixpoint choose {A : Type} (tag : string)
         (table : list (string * (json -> result A)))
  : option (json -> result A) :=
  match table with
  | [] => None
  | (t, v) :: table' => if String.eqb tag t then Some v else choose tag table'
  end.

Definition tagged_union {A : Type}
           (table : list (string * (json -> result A))) (j : json)
  : result A :=
  match j with
  | JObj o =>
      match lookup "type" o with
      | None => Err union_tag_not_found
      | Some (JStr tag) =>
          match choose tag table with
          | Some v => v j
          | None => Err union_tag_invalid
          end
      | Some _ => Err union_tag_invalid
      end
  | _ => Err model_attributes_type
  end.

(** *** Serialisers *)

Definition dump_Literal {tag : string} (_ : Literal tag) : json := JStr tag.

Definition dump_list {A : Type} (d : A -> json) (v : list A) : json :=
  JArr (map d v).

(** The members of a dumped object: a field always present, and an
    [Optional] one, which [exclude_none] leaves out when it is [None]. *)
Definition field (k : string) (v : json) : obj := [(k, v)].

Definition optional_field {A : Type} (exclude_none : bool) (k : string)
           (d : A -> json) (v : option A) : obj :=
  match v with
  | Some a => [(k, d a)]
  | None => if exclude_none then [] else [(k, JNull)]
  end.

End pydantic.

(** The classes of the repository's other modules that the models below
    are built from ([..user], [..file], [.common]): each is a model with
    its validator and serialiser; the two string tables are the members of
    [RollupFunctionLiteral] and [VerificationStateLiteral]. *)
Class Entities : Type := {
  UserObject : Type;
  FileObject : Type;
  SelectOption : Type;
  StatusOption : Type;
  UserObject_codec :: Codec UserObject;
  FileObject_codec :: Codec FileObject;
  SelectOption_codec :: Codec SelectOption;
  StatusOption_codec :: Codec StatusOption;
  RollupFunctionLiteral : list string;
  VerificationStateLiteral : list string
}.

Class EntitiesLaws `{Entities} : Prop := {
  UserObject_lawful :: Lawful UserObject;
  FileObject_lawful :: Lawful FileObject;
  SelectOption_lawful :: Lawful SelectOption;
  StatusOption_lawful :: Lawful StatusOption
}.

(** [..block]: the rich-text span and the factory of a plain text span. *)
Class RichText : Type := {
  RichTextObject : Type;
  RichTextObject_codec :: Codec RichTextObject;
  new_text : string -> RichTextObject
}.

(* ================================================================== *)
(** ** api/base.py *)

Module base.
Import pydantic.

Inductive NotionPaginatedDataTypeLiteral : Set :=
| block
| comment
| database
| page
| page_or_database
| property_item
| user.

Definition type_name (t : NotionPaginatedDataTypeLiteral) : string :=
  match t with
  | block => "block"
  | comment => "comment"
  | database => "database"
  | page => "page"
  | page_or_database => "page_or_database"
  | property_item => "property_item"
  | user => "user"
  end.

Definition validate_type (j : json) : result NotionPaginatedDataTypeLiteral :=
  match j with
  | JStr s =>
      if String.eqb s "block" then Ok block
      else if String.eqb s "comment" then Ok comment
      else if String.eqb s "database" then Ok database
      else if String.eqb s "page" then Ok page
      else if String.eqb s "page_or_database" then Ok page_or_database
      else if String.eqb s "property_item" then Ok property_item
      else if String.eqb s "user" then Ok user
      else Err literal_error
  | _ => Err literal_error
  end.

Module NotionPaginatedData.
Section model.
Context `{Formats} {TResult : Type} `{Codec TResult}.

Record t : Type := {
  object : Literal "list";
  results : list TResult;
  next_cursor : option string;
  has_more : bool;
  type : NotionPaginatedDataTypeLiteral;
  request_id : UUID;
  next_url : option string
}.

Definition validate (raw : json) : result t :=
  o <- model_fields raw ;;
  object_ <- with_default "object" (validate_Literal "list") (Lit "list") o ;;
  results_ <- required "results" (validate_list decode) o ;;
  next_cursor_ <- with_default "next_cursor" (nullable validate_str) None o ;;
  has_more_ <- required "has_more" validate_bool o ;;
  type_ <- required "type" validate_type o ;;
  request_id_ <- required "request_id" decode o ;;
  next_url_ <- with_default "next_url" (nullable validate_str) None o ;;
  Ok {| object := object_; results := results_;
        next_cursor := next_cursor_; has_more := has_more_;
        type := type_; request_id := request_id_;
        next_url := next_url_ |}.

Definition dump (exclude_none : bool) (v : t) : json :=
  JObj (field "object" (dump_Literal (object v))
        ++ field "results" (dump_list encode (results v))
        ++ optional_field exclude_none "next_cursor" JStr (next_cursor v)
        ++ field "has_more" (JBool (has_more v))
        ++ field "type" (JStr (type_name (type v)))
        ++ field "request_id" (encode (request_id v))
        ++ optional_field exclude_none "next_url" JStr (next_url v)).
End model.
Arguments t {_} TResult.
End NotionPaginatedData.

(** [StartCursor = Annotated[Optional[str], Field(...)]] *)
Definition StartCursor : Type := option string.

Definition validate_StartCursor : json -> result StartCursor :=
  nullable validate_str.

(** [PageSize = Annotated[Optional[int], Field(gt=0, le=100, ...)]] *)
Definition PageSize : Type := option Z.

Definition validate_PageSize `{Formats} : json -> result PageSize :=
  nullable (fun j => n <- validate_int j ;; n <- le 100 n ;; gt 0 n).

End base.

(* ================================================================== *)
(** ** api/comments.py *)

Module api_comments.
Import pydantic.

Module CreateCommentRequest.
Record t : Type := {
  start_cursor : base.StartCursor;
  page_size : base.PageSize
}.

Definition validate `{Formats} (raw : json) : result t :=
  o <- model_fields raw ;;
  start_cursor_ <- with_default "start_cursor" base.validate_StartCursor None o ;;
  page_size_ <- with_default "page_size" base.validate_PageSize None o ;;
  Ok {| start_cursor := start_cursor_; page_size := page_size_ |}.

(** The names of the declared fields. *)
Definition field_names : list string := ["start_cursor"; "page_size"].
End CreateCommentRequest.

Module RetrieveCommentsRequest.
Record t : Type := {
  block_id : string;
  start_cursor : base.StartCursor;
  page_size : base.PageSize
}.

Definition validate `{Formats} (raw : json) : result t :=
  o <- model_fields raw ;;
  block_id_ <- required "block_id" validate_str o ;;
  start_cursor_ <- with_default "start_cursor" base.validate_StartCursor None o ;;
  page_size_ <- with_default "page_size" base.validate_PageSize None o ;;
  Ok {| block_id := block_id_; start_cursor := start_cursor_;
        page_size := page_size_ |}.

(** The names of the declared fields. *)
Definition field_names : list string :=
  ["block_id"; "start_cursor"; "page_size"].
End RetrieveCommentsRequest.

End api_comments.

(* ================================================================== *)
(** ** endpoints/comments.py *)

Module endpoints_comments.
Import pydantic.

Module CreateCommentRequest.
Section model.
Context `{Formats} `{RichText}.

Record t : Type := {
  start_cursor : base.StartCursor;
  page_size : base.PageSize;
  rich_text : list RichTextObject
}.

Definition validate (raw : json) : result t :=
  o <- model_fields raw ;;
  start_cursor_ <- with_default "start_cursor" base.validate_StartCursor None o ;;
  page_size_ <- with_default "page_size" base.validate_PageSize None o ;;
  rich_text_ <- required "rich_text" (validate_list decode) o ;;
  Ok {| start_cursor := start_cursor_; page_size := page_size_;
        rich_text := rich_text_ |}.
End model.

(** The names of the declared fields. *)
Definition field_names : list string :=
  ["start_cursor"; "page_size"; "rich_text"].
End CreateCommentRequest.

Module RetrieveCommentsRequest.
Section model.
Context `{Formats}.

Record t : Type := {
  block_id : UUID;
  start_cursor : base.StartCursor;
  page_size : base.PageSize
}.

Definition validate (raw : json) : result t :=
  o <- model_fields raw ;;
  block_id_ <- required "block_id" decode o ;;
  start_cursor_ <- with_default "start_cursor" base.validate_StartCursor None o ;;
  page_size_ <- with_default "page_size" base.validate_PageSize None o ;;
  Ok {| block_id := block_id_; start_cursor := start_cursor_;
        page_size := page_size_ |}.
End model.

(** The names of the declared fields. *)
Definition field_names : list string :=
  ["block_id"; "start_cursor"; "page_size"].
End RetrieveCommentsRequest.

End endpoints_comments.

(* ================================================================== *)
(** ** objects/properties/page_property.py *)

Module page_property.
Import pydantic.

(** Every property class extends [BasePageProperty]: its fields [id] and
    [type] come first, and each class narrows [type] to its own tag. *)
Definition validate_id : obj -> result (option string) :=
  with_default "id" (nullable validate_str) None.

Definition validate_type (tag : string) : obj -> result (Literal tag) :=
  with_default "type" (validate_Literal tag) (Lit tag).

Definition dump_base {tag : string} (exclude_none : bool)
           (id_ : option string) (type_ : Literal tag) : obj :=
  optional_field exclude_none "id" JStr id_
  ++ field "type" (dump_Literal type_).

Module CheckboxProperty.
Record t : Type := {
  id : option string;
  type : Literal "checkbox";
  checkbox : bool
}.

Definition validate (raw : json) : result t :=
  o <- model_fields raw ;;
  id_ <- validate_id o ;;
  type_ <- validate_type "checkbox" o ;;
  checkbox_ <- required "checkbox" validate_bool o ;;
  Ok {| id := id_; type := type_; checkbox := checkbox_ |}.

Definition dump (exclude_none : bool) (v : t) : json :=
  JObj (dump_base exclude_none (id v) (type v)
        ++ field "checkbox" (JBool (checkbox v))).
End CheckboxProperty.

Module CreatedByProperty.
Section model.
Context `{Entities}.

Record t : Type := {
  id : option string;
  type : Literal "created_by";
  created_by : UserObject
}.

Definition validate (raw : json) : result t :=
  o <- model_fields raw ;;
  id_ <- validate_id o ;;
  type_ <- validate_type "created_by" o ;;
  created_by_ <- required "created_by" decode o ;;
  Ok {| id := id_; type := type_; created_by := created_by_ |}.

Definition dump (exclude_none : bool) (v : t) : json :=
  JObj (dump_base exclude_none (id v) (type v)
        ++ field "created_by" (encode (created_by v))).
End model.
End CreatedByProperty.

Module CreatedTimeProperty.
Section model.
Context `{Formats}.

Record t : Type := {
  id : option string;
  type : Literal "created_time";
  created_time : datetime
}.

Definition validate (raw : json) : result t :=
  o <- model_fields raw ;;
  id_ <- validate_id o ;;
  type_ <- validate_type "created_time" o ;;
  created_time_ <- required "created_time" decode o ;;
  Ok {| id := id_; type := type_; created_time := created_time_ |}.

Definition dump (exclude_none : bool) (v : t) : json :=
  JObj (dump_base exclude_none (id v) (type v)
        ++ field "created_time" (encode (created_time v))).
End model.
End CreatedTimeProperty.

Module DateValue.
Section model.
Context `{Formats}.

Record t : Type := {
  start : datetime;
  end_ : option datetime;
  time_zone : option string
}.

Definition validate (raw : json) : result t :=
  o <- model_fields raw ;;
  start_ <- required "start" decode o ;;
  end__ <- with_default "end" (nullable decode) None o ;;
  time_zone_ <- with_default "time_zone" (nullable validate_str) None o ;;
  Ok {| start := start_; end_ := end__; time_zone := time_zone_ |}.

Definition dump (exclude_none : bool) (v : t) : json :=
  JObj (field "start" (encode (start v))
        ++ optional_field exclude_none "end" encode (end_ v)
        ++ optional_field exclude_none "time_zone" JStr (time_zone v)).

(** [DateValue(start=..., end=..., time_zone=...)]: the class
    declares no validator of its own, and a value of the declared
    type passes the validator of its field unchanged. *)
Definition init (start_ : datetime) (end__ : option datetime)
           (time_zone_ : option string) : result t :=
  Ok {| start := start_; end_ := end__; time_zone := time_zone_ |}.
End model.
End DateValue.

Module DateProperty.
Section model.
Context `{Formats}.

Record t : Type := {
  id : option string;
  type : Literal "date";
  date : DateValue.t
}.

Definition validate (raw : json) : result t :=
  o <- model_fields raw ;;
  id_ <- validate_id o ;;
  type_ <- validate_type "date" o ;;
  date_ <- required "date" DateValue.validate o ;;
  Ok {| id := id_; type := type_; date := date_ |}.

Definition dump (exclude_none : bool) (v : t) : json :=
  JObj (dump_base exclude_none (id v) (type v)
        ++ field "date" (DateValue.dump exclude_none (date v))).

(** [cls(date=...)] *)
Definition init (date_ : DateValue.t) : result t :=
  Ok {| id := None; type := Lit "date"; date := date_ |}.

Definition new (start : datetime) (end_ : option datetime)
           (time_zone : option string) : result t :=
  date_ <- DateValue.init start end_ time_zone ;;
  init date_.
End model.
End DateProperty.

Module EmailProperty.
Section model.
Context `{Formats}.

Record t : Type := {
  id : option string;
  type : Literal "email";
  email : EmailStr
}.

Definition validate (raw : json) : result t :=
  o <- model_fields raw ;;
  id_ <- validate_id o ;;
  type_ <- validate_type "email" o ;;
  email_ <- required "email" decode o ;;
  Ok {| id := id_; type := type_; email := email_ |}.

Definition dump (exclude_none : bool) (v : t) : json :=
  JObj (dump_base exclude_none (id v) (type v)
        ++ field "email" (encode (email v))).
End model.
End EmailProperty.

Module FilesProperty.
Section model.
Context `{Entities}.

Record t : Type := {
  id : option string;
  type : Literal "files";
  files : list FileObject
}.

Definition validate (raw : json) : result t :=
  o <- model_fields raw ;;
  id_ <- validate_id o ;;
  type_ <- validate_type "files" o ;;
  files_ <- required "files" (validate_list decode) o ;;
  Ok {| id := id_; type := type_; files := files_ |}.

Definition dump (exclude_none : bool) (v : t) : json :=
  JObj (dump_base exclude_none (id v) (type v)
        ++ field "files" (dump_list encode (files v))).
End model.
End FilesProperty.

(** *** formula *)

Module BooleanFormulaData.
Record t : Type := {
  type : Literal "boolean";
  boolean : bool
}.

Definition validate (raw : json) : result t :=
  o <- model_fields raw ;;
  type_ <- validate_type "boolean" o ;;
  boolean_ <- required "boolean" validate_bool o ;;
  Ok {| type := type_; boolean := boolean_ |}.

Definition dump (v : t) : json :=
  JObj (field "type" (dump_Literal (type v))
        ++ field "boolean" (JBool (boolean v))).
End BooleanFormulaData.

Module DateFormulaData.
Section model.
Context `{Formats}.

Record t : Type := {
  type : Literal "date";
  date : DateValue.t
}.

Definition validate (raw : json) : result t :=
  o <- model_fields raw ;;
  type_ <- validate_type "date" o ;;
  date_ <- required "date" DateValue.validate o ;;
  Ok {| type := type_; date := date_ |}.

Definition dump (exclude_none : bool) (v : t) : json :=
  JObj (field "type" (dump_Literal (type v))
        ++ field "date" (DateValue.dump exclude_none (date v))).
End model.
End DateFormulaData.

Module NumberFormulaData.
Record t : Type := {
  type : Literal "number";
  number : float
}.

Definition validate `{Formats} (raw : json) : result t :=
  o <- model_fields raw ;;
  type_ <- validate_type "number" o ;;
  number_ <- required "number" validate_float o ;;
  Ok {| type := type_; number := number_ |}.

Definition dump (v : t) : json :=
  JObj (field "type" (dump_Literal (type v))
        ++ field "number" (JFloat (number v))).
End NumberFormulaData.

Module StringFormulaData.
Record t : Type := {
  type : Literal "string";
  string : String.string
}.

Definition validate (raw : json) : result t :=
  o <- model_fields raw ;;
  type_ <- validate_type "string" o ;;
  string_ <- required "string" validate_str o ;;
  Ok {| type := type_; string := string_ |}.

Definition dump (v : t) : json :=
  JObj (field "type" (dump_Literal (type v))
        ++ field "string" (JStr (string v))).
End StringFormulaData.

Module FormulaData.
Section model.
Context `{Formats}.

Inductive t : Type :=
| Boolean (d : BooleanFormulaData.t)
| Date (d : DateFormulaData.t)
| Number (d : NumberFormulaData.t)
| String (d : StringFormulaData.t).

Definition table : list (string * (json -> result t)) :=
  [ ("boolean", fun j => fmap Boolean (BooleanFormulaData.validate j));
    ("date", fun j => fmap Date (DateFormulaData.validate j));
    ("number", fun j => fmap Number (NumberFormulaData.validate j));
    ("string", fun j => fmap String (StringFormulaData.validate j)) ].

Definition validate : json -> result t := tagged_union table.

Definition dump (exclude_none : bool) (v : t) : json :=
  match v with
  | Boolean d => BooleanFormulaData.dump d
  | Date d => DateFormulaData.dump exclude_none d
  | Number d => NumberFormulaData.dump d
  | String d => StringFormulaData.dump d
  end.

(** The tag each case fixes for its [type] field. *)
Definition tag (v : t) : string :=
  match v with
  | Boolean _ => "boolean"
  | Date _ => "date"
  | Number _ => "number"
  | String _ => "string"
  end.
End model.
End FormulaData.

Module FormulaProperty.
Section model.
Context `{Formats}.

Record t : Type := {
  id : option string;
  type : Literal "formula";
  formula : FormulaData.t
}.

Definition validate (raw : json) : result t :=
  o <- model_fields raw ;;
  id_ <- validate_id o ;;
  type_ <- validate_type "formula" o ;;
  formula_ <- required "formula" FormulaData.validate o ;;
  Ok {| id := id_; type := type_; formula := formula_ |}.

Definition dump (exclude_none : bool) (v : t) : json :=
  JObj (dump_base exclude_none (id v) (type v)
        ++ field "formula" (FormulaData.dump exclude_none (formula v))).
End model.
End FormulaProperty.

Module LastEditedByProperty.
Section model.
Context `{Entities}.

Record t : Type := {
  id : option string;
  type : Literal "last_edited_by";
  last_edited_by : UserObject
}.

Definition validate (raw : json) : result t :=
  o <- model_fields raw ;;
  id_ <- validate_id o ;;
  type_ <- validate_type "last_edited_by" o ;;
  last_edited_by_ <- required "last_edited_by" decode o ;;
  Ok {| id := id_; type := type_; last_edited_by := last_edited_by_ |}.

Definition dump (exclude_none : bool) (v : t) : json :=
  JObj (dump_base exclude_none (id v) (type v)
        ++ field "last_edited_by" (encode (last_edited_by v))).
End model.
End LastEditedByProperty.

Module LastEditedTimeProperty.
Section model.
Context `{Formats}.

Record t : Type := {
  id : option string;
  type : Literal "last_edited_time";
  last_edited_time : datetime
}.

Definition validate (raw : json) : result t :=
  o <- model_fields raw ;;
  id_ <- validate_id o ;;
  type_ <- validate_type "last_edited_time" o ;;
  last_edited_time_ <- required "last_edited_time" decode o ;;
  Ok {| id := id_; type := type_;
        last_edited_time := last_edited_time_ |}.

Definition dump (exclude_none : bool) (v : t) : json :=
  JObj (dump_base exclude_none (id v) (type v)
        ++ field "last_edited_time" (encode (last_edited_time v))).
End model.
End LastEditedTimeProperty.

Module MultiSelectProperty.
Section model.
Context `{Entities}.

Record t : Type := {
  id : option string;
  type : Literal "multi_select";
  multi_select : list SelectOption
}.

Definition validate (raw : json) : result t :=
  o <- model_fields raw ;;
  id_ <- validate_id o ;;
  type_ <- validate_type "multi_select" o ;;
  multi_select_ <- required "multi_select" (validate_list decode) o ;;
  Ok {| id := id_; type := type_; multi_select := multi_select_ |}.

Definition dump (exclude_none : bool) (v : t) : json :=
  JObj (dump_base exclude_none (id v) (type v)
        ++ field "multi_select" (dump_list encode (multi_select v))).
End model.
End MultiSelectProperty.

Module NumberProperty.
Record t : Type := {
  id : option string;
  type : Literal "number";
  number : float
}.

Definition validate `{Formats} (raw : json) : result t :=
  o <- model_fields raw ;;
  id_ <- validate_id o ;;
  type_ <- validate_type "number" o ;;
  number_ <- required "number" validate_float o ;;
  Ok {| id := id_; type := type_; number := number_ |}.

Definition dump (exclude_none : bool) (v : t) : json :=
  JObj (dump_base exclude_none (id v) (type v)
        ++ field "number" (JFloat (number v))).
End NumberProperty.

Module PeopleProperty.
Section model.
Context `{Entities}.

Record t : Type := {
  id : option string;
  type : Literal "people";
  people : list UserObject
}.

Definition validate (raw : json) : result t :=
  o <- model_fields raw ;;
  id_ <- validate_id o ;;
  type_ <- validate_type "people" o ;;
  people_ <- required "people" (validate_list decode) o ;;
  Ok {| id := id_; type := type_; people := people_ |}.

Definition dump (exclude_none : bool) (v : t) : json :=
  JObj (dump_base exclude_none (id v) (type v)
        ++ field "people" (dump_list encode (people v))).
End model.
End PeopleProperty.

Module PhoneNumberProperty.
Record t : Type := {
  id : option string;
  type : Literal "phone_number";
  phone_number : option string
}.

Definition validate (raw : json) : result t :=
  o <- model_fields raw ;;
  id_ <- validate_id o ;;
  type_ <- validate_type "phone_number" o ;;
  phone_number_ <- with_default "phone_number" (nullable validate_str) None o ;;
  Ok {| id := id_; type := type_; phone_number := phone_number_ |}.

Definition dump (exclude_none : bool) (v : t) : json :=
  JObj (dump_base exclude_none (id v) (type v)
        ++ optional_field exclude_none "phone_number" JStr (phone_number v)).
End PhoneNumberProperty.

(** *** relation *)

Module PageReference.
Section model.
Context `{Formats}.

Record t : Type := { id : UUID }.

Definition validate (raw : json) : result t :=
  o <- model_fields raw ;;
  id_ <- required "id" decode o ;;
  Ok {| id := id_ |}.

Definition dump (v : t) : json :=
  JObj (field "id" (encode (id v))).

(** [PageReference(id=uuid)] *)
Definition init (id_ : UUID) : result t := Ok {| id := id_ |}.
End model.
End PageReference.

Module RelationProperty.
Section model.
Context `{Formats}.

Record t : Type := {
  id : option string;
  type : Literal "relation";
  relation : list PageReference.t;
  has_more : option bool
}.

Definition validate (raw : json) : result t :=
  o <- model_fields raw ;;
  id_ <- validate_id o ;;
  type_ <- validate_type "relation" o ;;
  relation_ <- required "relation" (validate_list PageReference.validate) o ;;
  has_more_ <- with_default "has_more" (nullable validate_bool) None o ;;
  Ok {| id := id_; type := type_; relation := relation_;
        has_more := has_more_ |}.

Definition dump (exclude_none : bool) (v : t) : json :=
  JObj (dump_base exclude_none (id v) (type v)
        ++ field "relation" (dump_list PageReference.dump (relation v))
        ++ optional_field exclude_none "has_more" JBool (has_more v)).

Definition create (relation_ : list UUID) : result t :=
  refs <- traverse PageReference.init relation_ ;;
  Ok {| id := None; type := Lit "relation"; relation := refs;
        has_more := None |}.
End model.
End RelationProperty.

(** *** rollup

    [BaseRollupData] declares [type] and [function]; the five cases
    narrow [type] and two of them add a payload. *)

Definition validate_function `{Entities} : obj -> result string :=
  required "function" (validate_literal RollupFunctionLiteral).

Module DateRollupData.
Section model.
Context `{Formats} `{Entities}.

Record t : Type := {
  type : Literal "date";
  function : string;
  date : DateValue.t
}.

Definition validate (raw : json) : result t :=
  o <- model_fields raw ;;
  type_ <- validate_type "date" o ;;
  function_ <- validate_function o ;;
  date_ <- required "date" DateValue.validate o ;;
  Ok {| type := type_; function := function_; date := date_ |}.

Definition dump (exclude_none : bool) (v : t) : json :=
  JObj (field "type" (dump_Literal (type v))
        ++ field "function" (JStr (function v))
        ++ field "date" (DateValue.dump exclude_none (date v))).
End model.
End DateRollupData.

Module NumberRollupData.
Section model.
Context `{Formats} `{Entities}.

Record t : Type := {
  type : Literal "number";
  function : string;
  number : float
}.

Definition validate (raw : json) : result t :=
  o <- model_fields raw ;;
  type_ <- validate_type "number" o ;;
  function_ <- validate_function o ;;
  number_ <- required "number" validate_float o ;;
  Ok {| type := type_; function := function_; number := number_ |}.

Definition dump (v : t) : json :=
  JObj (field "type" (dump_Literal (type v))
        ++ field "function" (JStr (function v))
        ++ field "number" (JFloat (number v))).
End model.
End NumberRollupData.

Module ArrayRollupData.
Section model.
Context `{Entities}.

Record t : Type := {
  type : Literal "array";
  function : string
}.

Definition validate (raw : json) : result t :=
  o <- model_fields raw ;;
  type_ <- validate_type "array" o ;;
  function_ <- validate_function o ;;
  Ok {| type := type_; function := function_ |}.

Definition dump (v : t) : json :=
  JObj (field "type" (dump_Literal (type v))
        ++ field "function" (JStr (function v))).
End model.
End ArrayRollupData.

Module IncompleteRollupData.
Section model.
Context `{Entities}.

Record t : Type := {
  type : Literal "incomplete";
  function : string
}.

Definition validate (raw : json) : result t :=
  o <- model_fields raw ;;
  type_ <- validate_type "incomplete" o ;;
  function_ <- validate_function o ;;
  Ok {| type := type_; function := function_ |}.

Definition dump (v : t) : json :=
  JObj (field "type" (dump_Literal (type v))
        ++ field "function" (JStr (function v))).
End model.
End IncompleteRollupData.

Module UnsupportedRollupData.
Section model.
Context `{Entities}.

Record t : Type := {
  type : Literal "unsupported";
  function : string
}.

Definition validate (raw : json) : result t :=
  o <- model_fields raw ;;
  type_ <- validate_type "unsupported" o ;;
  function_ <- validate_function o ;;
  Ok {| type := type_; function := function_ |}.

Definition dump (v : t) : json :=
  JObj (field "type" (dump_Literal (type v))
        ++ field "function" (JStr (function v))).
End model.
End UnsupportedRollupData.

Module RollupData.
Section model.
Context `{Formats} `{Entities}.

Inductive t : Type :=
| Date (d : DateRollupData.t)
| Number (d : NumberRollupData.t)
| Array (d : ArrayRollupData.t)
| Incomplete (d : IncompleteRollupData.t)
| Unsupported (d : UnsupportedRollupData.t).

Definition table : list (string * (json -> result t)) :=
  [ ("date", fun j => fmap Date (DateRollupData.validate j));
    ("number", fun j => fmap Number (NumberRollupData.validate j));
    ("array", fun j => fmap Array (ArrayRollupData.validate j));
    ("incomplete", fun j => fmap Incomplete (IncompleteRollupData.validate j));
    ("unsupported", fun j => fmap Unsupported (UnsupportedRollupData.validate j)) ].

Definition validate : json -> result t := tagged_union table.

Definition dump (exclude_none : bool) (v : t) : json :=
  match v with
  | Date d => DateRollupData.dump exclude_none d
  | Number d => NumberRollupData.dump d
  | Array d => ArrayRollupData.dump d
  | Incomplete d => IncompleteRollupData.dump d
  | Unsupported d => UnsupportedRollupData.dump d
  end.

Definition function (v : t) : string :=
  match v with
  | Date d => DateRollupData.function d
  | Number d => NumberRollupData.function d
  | Array d => ArrayRollupData.function d
  | Incomplete d => IncompleteRollupData.function d
  | Unsupported d => UnsupportedRollupData.function d
  end.

(** The values the constructors admit: [function] is typed by
    [RollupFunctionLiteral], every other field admits every value of its
    type. *)
Definition constructible (v : t) : Prop :=
  In (function v) RollupFunctionLiteral.

(** The tag each case fixes for its [type] field. *)
Definition tag (v : t) : string :=
  match v with
  | Date _ => "date"
  | Number _ => "number"
  | Array _ => "array"
  | Incomplete _ => "incomplete"
  | Unsupported _ => "unsupported"
  end.
End model.
End RollupData.

Module RollupProperty.
Section model.
Context `{Formats} `{Entities}.

Record t : Type := {
  id : option string;
  type : Literal "rollup";
  rollup : RollupData.t
}.

Definition validate (raw : json) : result t :=
  o <- model_fields raw ;;
  id_ <- validate_id o ;;
  type_ <- validate_type "rollup" o ;;
  rollup_ <- required "rollup" RollupData.validate o ;;
  Ok {| id := id_; type := type_; rollup := rollup_ |}.

Definition dump (exclude_none : bool) (v : t) : json :=
  JObj (dump_base exclude_none (id v) (type v)
        ++ field "rollup" (RollupData.dump exclude_none (rollup v))).
End model.
End RollupProperty.

Module RichTextProperty.
Section model.
Context `{RichText}.

Record t : Type := {
  id : option string;
  type : Literal "rich_text";
  rich_text : list RichTextObject
}.

Definition validate (raw : json) : result t :=
  o <- model_fields raw ;;
  id_ <- validate_id o ;;
  type_ <- validate_type "rich_text" o ;;
  rich_text_ <- required "rich_text" (validate_list decode) o ;;
  Ok {| id := id_; type := type_; rich_text := rich_text_ |}.

Definition dump (exclude_none : bool) (v : t) : json :=
  JObj (dump_base exclude_none (id v) (type v)
        ++ field "rich_text" (dump_list encode (rich_text v))).
End model.
End RichTextProperty.

Module SelectProperty.
Section model.
Context `{Entities}.

Record t : Type := {
  id : option string;
  type : Literal "select";
  select : SelectOption
}.

Definition validate (raw : json) : result t :=
  o <- model_fields raw ;;
  id_ <- validate_id o ;;
  type_ <- validate_type "select" o ;;
  select_ <- required "select" decode o ;;
  Ok {| id := id_; type := type_; select := select_ |}.

Definition dump (exclude_none : bool) (v : t) : json :=
  JObj (dump_base exclude_none (id v) (type v)
        ++ field "select" (encode (select v))).
End model.
End SelectProperty.

Module StatusProperty.
Section model.
Context `{Entities}.

Record t : Type := {
  id : option string;
  type : Literal "status";
  status : StatusOption
}.

Definition validate (raw : json) : result t :=
  o <- model_fields raw ;;
  id_ <- validate_id o ;;
  type_ <- validate_type "status" o ;;
  status_ <- required "status" decode o ;;
  Ok {| id := id_; type := type_; status := status_ |}.

Definition dump (exclude_none : bool) (v : t) : json :=
  JObj (dump_base exclude_none (id v) (type v)
        ++ field "status" (encode (status v))).
End model.
End StatusProperty.

Module TitleProperty.
Section model.
Context `{RichText}.

Record t : Type := {
  id : option string;
  type : Literal "title";
  title : list RichTextObject
}.

Definition validate (raw : json) : result t :=
  o <- model_fields raw ;;
  id_ <- validate_id o ;;
  type_ <- validate_type "title" o ;;
  title_ <- required "title" (validate_list decode) o ;;
  Ok {| id := id_; type := type_; title := title_ |}.

Definition dump (exclude_none : bool) (v : t) : json :=
  JObj (dump_base exclude_none (id v) (type v)
        ++ field "title" (dump_list encode (title v))).

(** [cls(title=...)] *)
Definition init (title_ : list RichTextObject) : result t :=
  Ok {| id := None; type := Lit "title"; title := title_ |}.

Definition new (text : string) : result t :=
  init [new_text text].
End model.
End TitleProperty.

Module URLProperty.
Section model.
Context `{Formats}.

Record t : Type := {
  id : option string;
  type : Literal "url";
  url : HttpUrl
}.

Definition validate (raw : json) : result t :=
  o <- model_fields raw ;;
  id_ <- validate_id o ;;
  type_ <- validate_type "url" o ;;
  url_ <- required "url" decode o ;;
  Ok {| id := id_; type := type_; url := url_ |}.

Definition dump (exclude_none : bool) (v : t) : json :=
  JObj (dump_base exclude_none (id v) (type v)
        ++ field "url" (encode (url v))).
End model.
End URLProperty.

(** *** unique_id *)

Module UniqueIDData.
Record t : Type := {
  number : Z;
  prefix : option string
}.

Definition validate `{Formats} (raw : json) : result t :=
  o <- model_fields raw ;;
  number_ <- required "number" validate_int o ;;
  prefix_ <- with_default "prefix" (nullable validate_str) None o ;;
  Ok {| number := number_; prefix := prefix_ |}.

Definition dump (exclude_none : bool) (v : t) : json :=
  JObj (field "number" (JInt (number v))
        ++ optional_field exclude_none "prefix" JStr (prefix v)).
End UniqueIDData.

Module UniqueIDProperty.
Section model.
Context `{Formats}.

Record t : Type := {
  id : option string;
  type : Literal "unique_id";
  unique_id : UniqueIDData.t
}.

Definition validate (raw : json) : result t :=
  o <- model_fields raw ;;
  id_ <- validate_id o ;;
  type_ <- validate_type "unique_id" o ;;
  unique_id_ <- required "unique_id" UniqueIDData.validate o ;;
  Ok {| id := id_; type := type_; unique_id := unique_id_ |}.

Definition dump (exclude_none : bool) (v : t) : json :=
  JObj (dump_base exclude_none (id v) (type v)
        ++ field "unique_id" (UniqueIDData.dump exclude_none (unique_id v))).
End model.
End UniqueIDProperty.

(** *** verification *)

Module VerificationData.
Section model.
Context `{Formats} `{Entities}.

Record t : Type := {
  state : string;
  verified_by : option UserObject;
  date : option DateValue.t
}.

Definition validate (raw : json) : result t :=
  o <- model_fields raw ;;
  state_ <- required "state" (validate_literal VerificationStateLiteral) o ;;
  verified_by_ <- with_default "verified_by" (nullable decode) None o ;;
  date_ <- with_default "date" (nullable DateValue.validate) None o ;;
  Ok {| state := state_; verified_by := verified_by_; date := date_ |}.

Definition dump (exclude_none : bool) (v : t) : json :=
  JObj (field "state" (JStr (state v))
        ++ optional_field exclude_none "verified_by" encode (verified_by v)
        ++ optional_field exclude_none "date"
             (DateValue.dump exclude_none) (date v)).

(** The values the constructor admits: [state] is typed by
    [VerificationStateLiteral]. *)
Definition constructible (v : t) : Prop :=
  In (state v) VerificationStateLiteral.
End model.
End VerificationData.

Module VerificationProperty.
Section model.
Context `{Formats} `{Entities}.

Record t : Type := {
  id : option string;
  type : Literal "verification";
  verification : VerificationData.t
}.

Definition validate (raw : json) : result t :=
  o <- model_fields raw ;;
  id_ <- validate_id o ;;
  type_ <- validate_type "verification" o ;;
  verification_ <- required "verification" VerificationData.validate o ;;
  Ok {| id := id_; type := type_; verification := verification_ |}.

Definition dump (exclude_none : bool) (v : t) : json :=
  JObj (dump_base exclude_none (id v) (type v)
        ++ field "verification" (VerificationData.dump exclude_none (verification v))).
End model.
End VerificationProperty.

(** *** The union of the property classes, discriminated by [type] *)

Module PageProperty.
Section model.
Context `{Formats} `{Entities} `{RichText}.

Inductive t : Type :=
| Checkbox (p : CheckboxProperty.t)
| CreatedBy (p : CreatedByProperty.t)
| CreatedTime (p : CreatedTimeProperty.t)
| Date (p : DateProperty.t)
| Email (p : EmailProperty.t)
| Files (p : FilesProperty.t)
| LastEditedBy (p : LastEditedByProperty.t)
| LastEditedTime (p : LastEditedTimeProperty.t)
| MultiSelect (p : MultiSelectProperty.t)
| Number (p : NumberProperty.t)
| People (p : PeopleProperty.t)
| PhoneNumber (p : PhoneNumberProperty.t)
| RichText (p : RichTextProperty.t)
| Select (p : SelectProperty.t)
| Status (p : StatusProperty.t)
| Title (p : TitleProperty.t)
| URL (p : URLProperty.t)
| Formula (p : FormulaProperty.t)
| Relation (p : RelationProperty.t)
| Rollup (p : RollupProperty.t)
| UniqueID (p : UniqueIDProperty.t)
| Verification (p : VerificationProperty.t).

Definition table : list (string * (json -> result t)) :=
  [ ("checkbox", fun j => fmap Checkbox (CheckboxProperty.validate j));
    ("created_by", fun j => fmap CreatedBy (CreatedByProperty.validate j));
    ("created_time", fun j => fmap CreatedTime (CreatedTimeProperty.validate j));
    ("date", fun j => fmap Date (DateProperty.validate j));
    ("email", fun j => fmap Email (EmailProperty.validate j));
    ("files", fun j => fmap Files (FilesProperty.validate j));
    ("last_edited_by", fun j => fmap LastEditedBy (LastEditedByProperty.validate j));
    ("last_edited_time", fun j => fmap LastEditedTime (LastEditedTimeProperty.validate j));
    ("multi_select", fun j => fmap MultiSelect (MultiSelectProperty.validate j));
    ("number", fun j => fmap Number (NumberProperty.validate j));
    ("people", fun j => fmap People (PeopleProperty.validate j));
    ("phone_number", fun j => fmap PhoneNumber (PhoneNumberProperty.validate j));
    ("rich_text", fun j => fmap RichText (RichTextProperty.validate j));
    ("select", fun j => fmap Select (SelectProperty.validate j));
    ("status", fun j => fmap Status (StatusProperty.validate j));
    ("title", fun j => fmap Title (TitleProperty.validate j));
    ("url", fun j => fmap URL (URLProperty.validate j));
    ("formula", fun j => fmap Formula (FormulaProperty.validate j));
    ("relation", fun j => fmap Relation (RelationProperty.validate j));
    ("rollup", fun j => fmap Rollup (RollupProperty.validate j));
    ("unique_id", fun j => fmap UniqueID (UniqueIDProperty.validate j));
    ("verification", fun j => fmap Verification (VerificationProperty.validate j)) ].

Definition validate : json -> result t := tagged_union table.

Definition dump (exclude_none : bool) (v : t) : json :=
  match v with
  | Checkbox p => CheckboxProperty.dump exclude_none p
  | CreatedBy p => CreatedByProperty.dump exclude_none p
  | CreatedTime p => CreatedTimeProperty.dump exclude_none p
  | Date p => DateProperty.dump exclude_none p
  | Email p => EmailProperty.dump exclude_none p
  | Files p => FilesProperty.dump exclude_none p
  | LastEditedBy p => LastEditedByProperty.dump exclude_none p
  | LastEditedTime p => LastEditedTimeProperty.dump exclude_none p
  | MultiSelect p => MultiSelectProperty.dump exclude_none p
  | Number p => NumberProperty.dump exclude_none p
  | People p => PeopleProperty.dump exclude_none p
  | PhoneNumber p => PhoneNumberProperty.dump exclude_none p
  | RichText p => RichTextProperty.dump exclude_none p
  | Select p => SelectProperty.dump exclude_none p
  | Status p => StatusProperty.dump exclude_none p
  | Title p => TitleProperty.dump exclude_none p
  | URL p => URLProperty.dump exclude_none p
  | Formula p => FormulaProperty.dump exclude_none p
  | Relation p => RelationProperty.dump exclude_none p
  | Rollup p => RollupProperty.dump exclude_none p
  | UniqueID p => UniqueIDProperty.dump exclude_none p
  | Verification p => VerificationProperty.dump exclude_none p
  end.

(** The tag each class fixes for its [type] field. *)
Definition tag (v : t) : string :=
  match v with
  | Checkbox _ => "checkbox"
  | CreatedBy _ => "created_by"
  | CreatedTime _ => "created_time"
  | Date _ => "date"
  | Email _ => "email"
  | Files _ => "files"
  | LastEditedBy _ => "last_edited_by"
  | LastEditedTime _ => "last_edited_time"
  | MultiSelect _ => "multi_select"
  | Number _ => "number"
  | People _ => "people"
  | PhoneNumber _ => "phone_number"
  | RichText _ => "rich_text"
  | Select _ => "select"
  | Status _ => "status"
  | Title _ => "title"
  | URL _ => "url"
  | Formula _ => "formula"
  | Relation _ => "relation"
  | Rollup _ => "rollup"
  | UniqueID _ => "unique_id"
  | Verification _ => "verification"
  end.

(** The values the constructors of the classes admit. *)
Definition constructible (v : t) : Prop :=
  match v with
  | Rollup p => RollupData.constructible (RollupProperty.rollup p)
  | Verification p =>
      VerificationData.constructible (VerificationProperty.verification p)
  | _ => True
  end.
End model.
End PageProperty.

End page_property.

(* ================================================================== *)
(** ** The rich-text span *)

Module block.
Import pydantic.

(** Modelled from the spec: the text of a rich-text span of [..block],
    which is not among the sources at hand.  Section 8 writes the span of
    a plain string as [{type: "text", text: {content: ...}}]; section 4.3
    says that it carries no link. *)
Record Text : Type := {
  content : string;
  link : option string
}.

(** Modelled from the spec: the [RichTextObject] of [..block], a span of
    type ["text"] with its text and, when it has some, its annotations,
    whose shape the specification leaves open. *)
Record RichTextObject : Type := {
  type : Literal "text";
  text : Text;
  annotations : option obj
}.

(** Modelled from the spec: [RichTextObjectFactory.new_text] of [..block]
    wraps a plain string as one span with no annotations and no link
    (section 4.3). *)
Definition new_text (content_ : string) : RichTextObject :=
  {| type := Lit "text";
     text := {| content := content_; link := None |};
     annotations := None |}.

(** Modelled from the spec: the validator of the text of a span. *)
Definition validate_Text (raw : json) : result Text :=
  o <- model_fields raw ;;
  content_ <- required "content" validate_str o ;;
  link_ <- with_default "link" (nullable validate_str) None o ;;
  Ok {| content := content_; link := link_ |}.

(** Modelled from the spec: the validator of a span. *)
Definition validate (raw : json) : result RichTextObject :=
  o <- model_fields raw ;;
  type_ <- with_default "type" (validate_Literal "text") (Lit "text") o ;;
  text_ <- required "text" validate_Text o ;;
  annotations_ <- with_default "annotations" (nullable model_fields) None o ;;
  Ok {| type := type_; text := text_; annotations := annotations_ |}.

(** Modelled from the spec: the serialiser of the text of a span. *)
Definition dump_Text (v : Text) : json :=
  JObj (field "content" (JStr (content v))
        ++ optional_field false "link" JStr (link v)).

(** Modelled from the spec: the serialiser of a span. *)
Definition dump (v : RichTextObject) : json :=
  JObj (field "type" (dump_Literal (type v))
        ++ field "text" (dump_Text (text v))
        ++ optional_field false "annotations" JObj (annotations v)).

(** Modelled from the spec: the span with its validator and serialiser. *)
#[local] Instance codec : Codec RichTextObject :=
  {| decode := validate; encode := dump |}.

(** Modelled from the spec: what [..block] supplies to the property
    classes. *)
#[local] Instance rich_text : RichText :=
  Build_RichText RichTextObject codec new_text.
End block.

(* ================================================================== *)
(** ** An instance of the formats and of the entities

    The models are parametric in the string formats and in the classes of
    the modules not at hand.  To run them on concrete payloads, this
    instance keeps a format as its text, admitted when it has the shape of
    the canonical form, and cuts an entity down to its name. *)

Module sample.
Import pydantic.

Definition is_digit (c : ascii) : bool :=
  let n := N_of_ascii c in ((48 <=? n) && (n <=? 57))%N.

Definition is_hex (c : ascii) : bool :=
  let n := N_of_ascii c in
  (((48 <=? n) && (n <=? 57)) || ((97 <=? n) && (n <=? 102))
   || ((65 <=? n) && (n <=? 70)))%N.

(** [shaped pattern s]: [s] follows [pattern] character by character,
    where ['d'] stands for a digit, ['h'] for a hexadecimal digit and
    every other character for itself. *)
Fixpoint shaped (pattern s : string) : bool :=
  match pattern, s with
  | EmptyString, EmptyString => true
  | String p pattern', String c s' =>
      (if Ascii.eqb p "d" then is_digit c
       else if Ascii.eqb p "h" then is_hex c
       else Ascii.eqb p c)
      && shaped pattern' s'
  | _, _ => false
  end.

Definition is_uuid : string -> bool :=
  shaped "hhhhhhhh-hhhh-hhhh-hhhh-hhhhhhhhhhhh".

Definition is_datetime : string -> bool :=
  shaped "dddd-dd-ddTdd:dd:ddZ".

Fixpoint has_at (s : string) : bool :=
  match s with
  | EmptyString => false
  | String c s' => Ascii.eqb c "@" || has_at s'
  end.

Definition is_email (s : string) : bool := has_at s.

Definition is_http_url (s : string) : bool :=
  String.prefix "http://" s || String.prefix "https://" s.

(** A format kept as its text. *)
Record text (ok : string -> bool) : Type := {
  chars : string;
  chars_ok : ok chars = true
}.

Arguments chars {ok} _.
Arguments chars_ok {ok} _.

Definition validate_text (ok : string -> bool) (j : json) : result (text ok) :=
  match j with
  | JStr s =>
      (if ok s as b return ok s = b -> result (text ok)
       then fun e => Ok {| chars := s; chars_ok := e |}
       else fun _ => Err (value_error "malformed")) eq_refl
  | _ => Err string_type
  end.

#[local] Instance text_codec (ok : string -> bool) : Codec (text ok) :=
  {| decode := validate_text ok; encode := fun t => JStr (chars t) |}.

(** Decimal digits, most significant first. *)
Fixpoint digits_as_int (acc : Z) (s : string) : option Z :=
  match s with
  | EmptyString => Some acc
  | String c s' =>
      if is_digit c
      then digits_as_int (10 * acc + Z.of_N (N_of_ascii c - 48)) s'
      else None
  end.

Definition decimal_as_int (s : string) : option Z :=
  match s with
  | EmptyString => None
  | String "-" (String _ _ as s') => option_map Z.opp (digits_as_int 0 s')
  | _ => digits_as_int 0 s
  end.

#[local] Instance formats : Formats :=
  {| datetime := text is_datetime;
     UUID := text is_uuid;
     EmailStr := text is_email;
     HttpUrl := text is_http_url;
     str_as_int := decimal_as_int;
     str_as_float := fun s => option_map int_as_float (decimal_as_int s) |}.

(** Two datetimes of this instance are in the order of their texts: the
    canonical form is of fixed width, most significant field first. *)
Definition before (a b : text is_datetime) : Prop :=
  String.ltb (chars a) (chars b) = true.

(** An entity cut down to its name. *)
Record named : Type := { name : string }.

Definition validate_named (raw : json) : result named :=
  o <- model_fields raw ;;
  name_ <- required "name" validate_str o ;;
  Ok {| name := name_ |}.

Definition dump_named (v : named) : json :=
  JObj (field "name" (JStr (name v))).

#[local] Instance named_codec : Codec named :=
  {| decode := validate_named; encode := dump_named |}.

#[local] Instance entities : Entities :=
  {| UserObject := named;
     FileObject := named;
     SelectOption := named;
     StatusOption := named;
     RollupFunctionLiteral :=
       ["average"; "count"; "max"; "min"; "show_original"; "sum"];
     VerificationStateLiteral := ["verified"; "unverified"] |}.

Definition may1 : text is_datetime :=
  {| chars := "2024-05-01T09:00:00Z"; chars_ok := eq_refl |}.

Definition may2 : text is_datetime :=
  {| chars := "2024-05-02T09:00:00Z"; chars_ok := eq_refl |}.

Definition request : text is_uuid :=
  {| chars := "0e5235bf-86aa-4efb-93aa-772cce7eab71"; chars_ok := eq_refl |}.

(** The property union as the element type of a paginated collection. *)
Definition Property : Type :=
  @page_property.PageProperty.t formats entities block.rich_text.

#[local] Instance page_property_codec : Codec Property :=
  {| decode := @page_property.PageProperty.validate formats entities
                 block.rich_text;
     encode := @page_property.PageProperty.dump formats entities
                 block.rich_text false |}.


(** A page that announces more results and gives no cursor. *)
Definition degraded_page : obj :=
  [ ("object", JStr "list");
    ("results", JArr []);
    ("next_cursor", JNull);
    ("has_more", JBool true);
    ("type", JStr "page");
    ("request_id", JStr "0e5235bf-86aa-4efb-93aa-772cce7eab71") ].

(** What that page validates into. *)
Definition degraded : base.NotionPaginatedData.t Property :=
  @base.NotionPaginatedData.Build_t formats Property
    (Lit "list") [] None true base.page request None.

Definition checked : json :=
  JObj [ ("type", JStr "checkbox"); ("checkbox", JBool true) ].

Definition malformed : json :=
  JObj [ ("type", JStr "checkbox"); ("checkbox", JStr "not-a-bool") ].

(** A page whose third result is malformed. *)
Definition mixed_page : obj :=
  [ ("object", JStr "list");
    ("results", JArr [checked; checked; malformed]);
    ("next_cursor", JNull);
    ("has_more", JBool false);
    ("type", JStr "property_item");
    ("request_id", JStr "0e5235bf-86aa-4efb-93aa-772cce7eab71") ].

(** A page of two users, with a cursor to the next one. *)
Definition users_page : base.NotionPaginatedData.t named :=
  @base.NotionPaginatedData.Build_t formats named
    (Lit "list") [ {| name := "Ada" |}; {| name := "Grace" |} ]
    (Some "LYxaUO") true base.user request None.

Definition reference : json :=
  JObj [("id", JStr "0e5235bf-86aa-4efb-93aa-772cce7eab71")].

(** A relation that says it has more references than it lists. *)
Definition truncated_relation : obj :=
  [ ("type", JStr "relation");
    ("relation", JArr [reference; reference]);
    ("has_more", JBool true) ].

(** What that relation validates into. *)
Definition kept_relation : @page_property.RelationProperty.t formats :=
  @page_property.RelationProperty.Build_t formats
    None (Lit "relation")
    [ @page_property.PageReference.Build_t formats request;
      @page_property.PageReference.Build_t formats request ]
    (Some true).

(** A checked checkbox, as an object and as a property. *)
Definition checked_fields : obj :=
  [ ("type", JStr "checkbox"); ("checkbox", JBool true) ].

Definition checked_property : Property :=
  page_property.PageProperty.Checkbox
    {| page_property.CheckboxProperty.id := None;
       page_property.CheckboxProperty.type := Lit "checkbox";
       page_property.CheckboxProperty.checkbox := true |}.

(** The value of a rollup that sums to 3.5, and of a formula that holds a
    string. *)
Definition sum_fields : obj :=
  [ ("type", JStr "number"); ("number", JFloat 3.5);
    ("function", JStr "sum") ].

Definition sum_rollup : @page_property.RollupData.t formats :=
  page_property.RollupData.Number
    {| page_property.NumberRollupData.type := Lit "number";
       page_property.NumberRollupData.function := "sum";
       page_property.NumberRollupData.number := 3.5%float |}.

Definition rollup_fields : obj :=
  [ ("type", JStr "rollup"); ("rollup", JObj sum_fields) ].

Definition rollup_property : Property :=
  page_property.PageProperty.Rollup
    (@page_property.RollupProperty.Build_t formats
       None (Lit "rollup") sum_rollup).

Definition string_fields : obj :=
  [ ("type", JStr "string"); ("string", JStr "done") ].

Definition string_formula : @page_property.FormulaData.t formats :=
  page_property.FormulaData.String
    {| page_property.StringFormulaData.type := Lit "string";
       page_property.StringFormulaData.string := "done" |}.

(** A phone number property that gives no phone number. *)
Definition silent_phone : obj :=
  [ ("id", JStr "%5Dz%3A"); ("type", JStr "phone_number") ].

(** A date with a start and nothing else. *)
Definition instant : obj := [("start", JStr "2024-05-01T09:00:00Z")].

(** A request to create a comment of one span. *)
Definition comment_of_one_span : obj :=
  [ ("page_size", JInt 25);
    ("rich_text",
     JArr [ JObj [ ("type", JStr "text");
                   ("text", JObj [ ("content", JStr "Hi") ]) ] ]) ].

(** Requests for the comments of a block, with a page size or without. *)
Definition comments_of_block (page_size : option Z) : obj :=
  ("block_id", JStr "0e5235bf-86aa-4efb-93aa-772cce7eab71")
  :: match page_size with
     | Some n => [("page_size", JInt n)]
     | None => []
     end.

(** A request for the comments of a block that writes its page size as
    any raw value. *)
Definition comments_with (page_size : json) : obj :=
  [ ("block_id", JStr "0e5235bf-86aa-4efb-93aa-772cce7eab71");
    ("page_size", page_size) ].

(** A formula property whose formula names a case that does not exist. *)
Definition mystery_formula : obj :=
  [ ("type", JStr "formula");
    ("formula", JObj [ ("type", JStr "mystery_kind") ]) ].

End sample.

(* ================================================================== *)
(** ** Objects that agree on some keys *)

Definition same_on (keys : list string) (o o' : obj) : Prop :=
  forall k : string, In k keys -> lookup k o = lookup k o'.

(* ================================================================== *)
(** ** The rule of the [page_size] field *)

(** What a request model does with [page_size] on the object [o]: it
    admits an object that leaves the field out, and it admits an integer
    exactly when it is positive and at most 100. *)
Definition page_size_rule {T : Type} (validate : json -> result T) (o : obj)
  : Prop :=
  (lookup "page_size" o = None -> is_ok (validate (JObj o)) = true)
  /\ (forall n : Z,
         lookup "page_size" o = Some (JInt n) ->
         (is_ok (validate (JObj o)) = true <-> 0 < n <= 100)).

(** What the validator of [page_size] accepts, by the kind of the raw
    value: null; an integer within the bounds; and, by the coercions of
    lax mode, [true] (which counts as 1), a float with no fractional part
    and a string that reads as an integer, when the integer is within the
    bounds.  Arrays and objects are never accepted. *)
Definition page_size_accepts `{Formats} (j : json) : Prop :=
  match j with
  | JNull => True
  | JInt n => 0 < n <= 100
  | JBool b => b = true
  | JFloat x => exists n : Z, pydantic.float_as_int x = Ok n /\ 0 < n <= 100
  | JStr s => exists n : Z, str_as_int s = Some n /\ 0 < n <= 100
  | JArr _ | JObj _ => False
  end.

(** What a request model does with [page_size] on the object [o], over
    every raw value: it validates exactly when the field is left out or
    holds a value that the validator of [page_size] accepts. *)
Definition page_size_rule_lax `{Formats} {T : Type}
           (validate : json -> result T) (o : obj) : Prop :=
  is_ok (validate (JObj o)) = true
  <-> match lookup "page_size" o with
      | None => True
      | Some j => page_size_accepts j
      end.

(* ================================================================== *)
(** ** Validators that fail with shape mismatches only *)

Definition shape_result {A : Type} (r : result A) : Prop :=
  forall e : ErrorType, r = Err e -> classify e = ShapeMismatch.

Definition shape_only {A : Type} (v : json -> result A) : Prop :=
  forall j : json, shape_result (v j).

(** The validators of the formats and of the classes of the other
    modules may fail in any way; these classes say that they fail with
    shape mismatches only. *)
Class ShapeOnly (A : Type) `{Codec A} : Prop :=
  decode_shape : shape_only decode.

Class FormatsShape `{Formats} : Prop := {
  datetime_shape :: ShapeOnly datetime;
  UUID_shape :: ShapeOnly UUID;
  EmailStr_shape :: ShapeOnly EmailStr;
  HttpUrl_shape :: ShapeOnly HttpUrl
}.

Class EntitiesShape `{Entities} : Prop := {
  UserObject_shape :: ShapeOnly UserObject;
  FileObject_shape :: ShapeOnly FileObject;
  SelectOption_shape :: ShapeOnly SelectOption;
  StatusOption_shape :: ShapeOnly StatusOption
}.

(** The inner object of a formula or rollup property binds [type] to a
    value that is no tag of the nested union. *)
Definition unknown_inner_tag {A : Type}
           (table : list (string * (json -> result A))) (inner : obj)
  : Prop :=
  exists x : json,
    lookup "type" inner = Some x
    /\ forall t : string, x = JStr t -> ~ In t (map fst table).

(* ================================================================== *)
(** ** Round trips of the classes *)

Section traverse.
Context {A B : Type}.

Lemma traverse_map (f : A -> result B) (g : B -> A) (l : list B) :
  (forall b, f (g b) = Ok b) ->
  pydantic.traverse f (map g l) = Ok l.
Proof.
  intros Hfg. induction l as [|b l IH]; simpl.
  - reflexivity.
  - rewrite Hfg. simpl. rewrite IH. reflexivity.
Qed.

Lemma traverse_err (f : A -> result B) (l : list A) (a : A) (e : ErrorType) :
  In a l -> f a = Err e -> exists e', pydantic.traverse f l = Err e'.
Proof.
  intros Hin Hf. induction l as [|x l IH]; simpl in *.
  - contradiction.
  - destruct Hin as [-> | Hin].
    + rewrite Hf. simpl. eauto.
    + destruct (f x); simpl; [|eauto].
      destruct (IH Hin) as [e' ->]. simpl. eauto.
Qed.

Lemma traverse_ok (f : A -> result B) (l : list A) (bs : list B) :
  pydantic.traverse f l = Ok bs -> Forall2 (fun a b => f a = Ok b) l bs.
Proof.
  revert bs. induction l as [|a l IH]; simpl; intros bs Hok.
  - injection Hok as <-. constructor.
  - destruct (f a) eqn:Ha; simpl in Hok; [|discriminate].
    destruct (pydantic.traverse f l); simpl in Hok; [|discriminate].
    injection Hok as <-. constructor; auto.
Qed.
End traverse.

Lemma list_roundtrip {A : Type} (f : json -> result A) (g : A -> json)
      (l : list A) :
  (forall a, f (g a) = Ok a) ->
  pydantic.validate_list f (pydantic.dump_list g l) = Ok l.
Proof. apply traverse_map. Qed.

Section lawful.
Context {A : Type} `{Lawful A}.

Lemma nullable_encode (a : A) :
  pydantic.nullable decode (encode a) = Ok (Some a).
Proof.
  unfold pydantic.nullable.
  destruct (encode a) eqn:E;
    try (rewrite <- E, decode_encode; reflexivity).
  exfalso. exact (encode_not_null a E).
Qed.

Lemma list_encode (l : list A) :
  pydantic.validate_list decode (pydantic.dump_list encode l) = Ok l.
Proof. apply list_roundtrip, decode_encode. Qed.
End lawful.

Lemma validate_literal_member (table : list string) (s : string) :
  In s table -> pydantic.validate_literal table (JStr s) = Ok s.
Proof.
  intros Hin. simpl.
  replace (existsb (String.eqb s) table) with true; [reflexivity|].
  symmetry. apply existsb_exists. exists s. split; [assumption|].
  apply String.eqb_refl.
Qed.

(** Reads back the fields one class has written: the members are looked
    up by computation, the values of other classes by their own lemmas. *)
Ltac read_back :=
  repeat match goal with
         | x : pydantic.Literal _ |- _ => destruct x
         | x : option _ |- _ => destruct x
         | x : bool |- _ => destruct x
         end;
  cbn;
  repeat (progress rewrite ?decode_encode, ?nullable_encode, ?list_encode; cbn);
  try reflexivity.

(** Closes one case of a union: the tag the class has dumped selects the
    validator of the class, which reads back what the class has dumped. *)
Ltac by_class C d lem :=
  transitivity (fmap C (Ok d));
  [ rewrite <- lem; destruct d;
    repeat match goal with
           | x : pydantic.Literal _ |- _ => destruct x
           | x : option _ |- _ => destruct x
           | x : bool |- _ => destruct x
           end;
    reflexivity
  | reflexivity ].

Section roundtrip.
Context `{FormatsLaws} `{EntitiesLaws} `{RichText}
        {RichTextObject_lawful : Lawful RichTextObject}.

Import page_property.

#[local] Arguments pydantic.validate_literal : simpl never.
#[local] Arguments pydantic.validate_list : simpl never.
#[local] Arguments pydantic.dump_list : simpl never.
#[local] Arguments DateValue.validate : simpl never.
#[local] Arguments DateValue.dump : simpl never.
#[local] Arguments PageReference.validate : simpl never.
#[local] Arguments PageReference.dump : simpl never.
#[local] Arguments UniqueIDData.validate : simpl never.
#[local] Arguments UniqueIDData.dump : simpl never.
#[local] Arguments VerificationData.validate : simpl never.
#[local] Arguments VerificationData.dump : simpl never.
#[local] Arguments FormulaData.validate : simpl never.
#[local] Arguments FormulaData.dump : simpl never.
#[local] Arguments RollupData.validate : simpl never.
#[local] Arguments RollupData.dump : simpl never.
#[local] Arguments BooleanFormulaData.validate : simpl never.
#[local] Arguments BooleanFormulaData.dump : simpl never.
#[local] Arguments DateFormulaData.validate : simpl never.
#[local] Arguments DateFormulaData.dump : simpl never.
#[local] Arguments NumberFormulaData.validate : simpl never.
#[local] Arguments NumberFormulaData.dump : simpl never.
#[local] Arguments StringFormulaData.validate : simpl never.
#[local] Arguments StringFormulaData.dump : simpl never.
#[local] Arguments DateRollupData.validate : simpl never.
#[local] Arguments DateRollupData.dump : simpl never.
#[local] Arguments NumberRollupData.validate : simpl never.
#[local] Arguments NumberRollupData.dump : simpl never.
#[local] Arguments ArrayRollupData.validate : simpl never.
#[local] Arguments ArrayRollupData.dump : simpl never.
#[local] Arguments IncompleteRollupData.validate : simpl never.
#[local] Arguments IncompleteRollupData.dump : simpl never.
#[local] Arguments UnsupportedRollupData.validate : simpl never.
#[local] Arguments UnsupportedRollupData.dump : simpl never.
#[local] Arguments CheckboxProperty.validate : simpl never.
#[local] Arguments CheckboxProperty.dump : simpl never.
#[local] Arguments CreatedByProperty.validate : simpl never.
#[local] Arguments CreatedByProperty.dump : simpl never.
#[local] Arguments CreatedTimeProperty.validate : simpl never.
#[local] Arguments CreatedTimeProperty.dump : simpl never.
#[local] Arguments DateProperty.validate : simpl never.
#[local] Arguments DateProperty.dump : simpl never.
#[local] Arguments EmailProperty.validate : simpl never.
#[local] Arguments EmailProperty.dump : simpl never.
#[local] Arguments FilesProperty.validate : simpl never.
#[local] Arguments FilesProperty.dump : simpl never.
#[local] Arguments LastEditedByProperty.validate : simpl never.
#[local] Arguments LastEditedByProperty.dump : simpl never.
#[local] Arguments LastEditedTimeProperty.validate : simpl never.
#[local] Arguments LastEditedTimeProperty.dump : simpl never.
#[local] Arguments MultiSelectProperty.validate : simpl never.
#[local] Arguments MultiSelectProperty.dump : simpl never.
#[local] Arguments NumberProperty.validate : simpl never.
#[local] Arguments NumberProperty.dump : simpl never.
#[local] Arguments PeopleProperty.validate : simpl never.
#[local] Arguments PeopleProperty.dump : simpl never.
#[local] Arguments PhoneNumberProperty.validate : simpl never.
#[local] Arguments PhoneNumberProperty.dump : simpl never.
#[local] Arguments RichTextProperty.validate : simpl never.
#[local] Arguments RichTextProperty.dump : simpl never.
#[local] Arguments SelectProperty.validate : simpl never.
#[local] Arguments SelectProperty.dump : simpl never.
#[local] Arguments StatusProperty.validate : simpl never.
#[local] Arguments StatusProperty.dump : simpl never.
#[local] Arguments TitleProperty.validate : simpl never.
#[local] Arguments TitleProperty.dump : simpl never.
#[local] Arguments URLProperty.validate : simpl never.
#[local] Arguments URLProperty.dump : simpl never.
#[local] Arguments FormulaProperty.validate : simpl never.
#[local] Arguments FormulaProperty.dump : simpl never.
#[local] Arguments RelationProperty.validate : simpl never.
#[local] Arguments RelationProperty.dump : simpl never.
#[local] Arguments RollupProperty.validate : simpl never.
#[local] Arguments RollupProperty.dump : simpl never.
#[local] Arguments UniqueIDProperty.validate : simpl never.
#[local] Arguments UniqueIDProperty.dump : simpl never.
#[local] Arguments VerificationProperty.validate : simpl never.
#[local] Arguments VerificationProperty.dump : simpl never.

Lemma DateValue_roundtrip en (v : DateValue.t) :
  DateValue.validate (DateValue.dump en v) = Ok v.
Proof.
  unfold DateValue.validate, DateValue.dump. destruct v. read_back.
Qed.

Lemma DateValue_nullable_roundtrip en (v : DateValue.t) :
  pydantic.nullable DateValue.validate (DateValue.dump en v)
  = Ok (Some v).
Proof.
  unfold pydantic.nullable.
  change (DateValue.dump en v) with (JObj (pydantic.field "start" (encode (DateValue.start v))
    ++ pydantic.optional_field en "end" encode (DateValue.end_ v)
    ++ pydantic.optional_field en "time_zone" JStr (DateValue.time_zone v))) at 1.
  cbn. rewrite DateValue_roundtrip. reflexivity.
Qed.

Lemma PageReference_roundtrip (v : PageReference.t) :
  PageReference.validate (PageReference.dump v) = Ok v.
Proof.
  unfold PageReference.validate, PageReference.dump. destruct v. read_back.
Qed.

Lemma UniqueIDData_roundtrip en (v : UniqueIDData.t) :
  UniqueIDData.validate (UniqueIDData.dump en v) = Ok v.
Proof.
  unfold UniqueIDData.validate, UniqueIDData.dump. destruct v. read_back.
Qed.

Lemma BooleanFormulaData_roundtrip (v : BooleanFormulaData.t) :
  BooleanFormulaData.validate (BooleanFormulaData.dump v) = Ok v.
Proof.
  unfold BooleanFormulaData.validate, BooleanFormulaData.dump. destruct v. read_back.
Qed.

Lemma DateFormulaData_roundtrip en (v : DateFormulaData.t) :
  DateFormulaData.validate (DateFormulaData.dump en v) = Ok v.
Proof.
  unfold DateFormulaData.validate, DateFormulaData.dump. destruct v. read_back.
  all: rewrite DateValue_roundtrip; reflexivity.
Qed.

Lemma NumberFormulaData_roundtrip (v : NumberFormulaData.t) :
  NumberFormulaData.validate (NumberFormulaData.dump v) = Ok v.
Proof.
  unfold NumberFormulaData.validate, NumberFormulaData.dump. destruct v. read_back.
Qed.

Lemma StringFormulaData_roundtrip (v : StringFormulaData.t) :
  StringFormulaData.validate (StringFormulaData.dump v) = Ok v.
Proof.
  unfold StringFormulaData.validate, StringFormulaData.dump. destruct v. read_back.
Qed.

Lemma DateRollupData_roundtrip en (v : DateRollupData.t) :
  In (DateRollupData.function v) RollupFunctionLiteral ->
  DateRollupData.validate (DateRollupData.dump en v) = Ok v.
Proof.
  unfold DateRollupData.validate, DateRollupData.dump. destruct v. cbn [DateRollupData.function]. intros Hfn.
  read_back.
  all: rewrite (validate_literal_member _ _ Hfn); cbn. all: rewrite DateValue_roundtrip.
  all: reflexivity.
Qed.

Lemma NumberRollupData_roundtrip (v : NumberRollupData.t) :
  In (NumberRollupData.function v) RollupFunctionLiteral ->
  NumberRollupData.validate (NumberRollupData.dump v) = Ok v.
Proof.
  unfold NumberRollupData.validate, NumberRollupData.dump. destruct v. cbn [NumberRollupData.function]. intros Hfn.
  read_back.
  all: rewrite (validate_literal_member _ _ Hfn); cbn.
  all: reflexivity.
Qed.

Lemma ArrayRollupData_roundtrip (v : ArrayRollupData.t) :
  In (ArrayRollupData.function v) RollupFunctionLiteral ->
  ArrayRollupData.validate (ArrayRollupData.dump v) = Ok v.
Proof.
  unfold ArrayRollupData.validate, ArrayRollupData.dump. destruct v. cbn [ArrayRollupData.function]. intros Hfn.
  read_back.
  all: rewrite (validate_literal_member _ _ Hfn); cbn.
  all: reflexivity.
Qed.

Lemma IncompleteRollupData_roundtrip (v : IncompleteRollupData.t) :
  In (IncompleteRollupData.function v) RollupFunctionLiteral ->
  IncompleteRollupData.validate (IncompleteRollupData.dump v) = Ok v.
Proof.
  unfold IncompleteRollupData.validate, IncompleteRollupData.dump. destruct v. cbn [IncompleteRollupData.function]. intros Hfn.
  read_back.
  all: rewrite (validate_literal_member _ _ Hfn); cbn.
  all: reflexivity.
Qed.

Lemma UnsupportedRollupData_roundtrip (v : UnsupportedRollupData.t) :
  In (UnsupportedRollupData.function v) RollupFunctionLiteral ->
  UnsupportedRollupData.validate (UnsupportedRollupData.dump v) = Ok v.
Proof.
  unfold UnsupportedRollupData.validate, UnsupportedRollupData.dump. destruct v. cbn [UnsupportedRollupData.function]. intros Hfn.
  read_back.
  all: rewrite (validate_literal_member _ _ Hfn); cbn.
  all: reflexivity.
Qed.

Lemma FormulaData_roundtrip en (v : FormulaData.t) :
  FormulaData.validate (FormulaData.dump en v) = Ok v.
Proof.
  unfold FormulaData.validate.
  destruct v as [d|d|d|d]; cbn [FormulaData.dump].
  - by_class FormulaData.Boolean d (BooleanFormulaData_roundtrip d).
  - by_class FormulaData.Date d (DateFormulaData_roundtrip en d).
  - by_class FormulaData.Number d (NumberFormulaData_roundtrip d).
  - by_class FormulaData.String d (StringFormulaData_roundtrip d).
Qed.

Lemma RollupData_roundtrip en (v : RollupData.t) :
  RollupData.constructible v ->
  RollupData.validate (RollupData.dump en v) = Ok v.
Proof.
  unfold RollupData.validate, RollupData.constructible.
  destruct v as [d|d|d|d|d]; cbn [RollupData.dump RollupData.function];
    intros Hfn.
  - by_class RollupData.Date d (DateRollupData_roundtrip en d Hfn).
  - by_class RollupData.Number d (NumberRollupData_roundtrip d Hfn).
  - by_class RollupData.Array d (ArrayRollupData_roundtrip d Hfn).
  - by_class RollupData.Incomplete d (IncompleteRollupData_roundtrip d Hfn).
  - by_class RollupData.Unsupported d (UnsupportedRollupData_roundtrip d Hfn).
Qed.

Lemma VerificationData_roundtrip en (v : VerificationData.t) :
  VerificationData.constructible v ->
  VerificationData.validate (VerificationData.dump en v) = Ok v.
Proof.
  unfold VerificationData.validate, VerificationData.dump,
    VerificationData.constructible.
  destruct v. cbn [VerificationData.state]. intros Hst. read_back.
  all: rewrite (validate_literal_member _ _ Hst); cbn.
  all: rewrite ?nullable_encode; cbn.
  all: rewrite ?DateValue_nullable_roundtrip; reflexivity.
Qed.

Lemma CreatedTimeProperty_roundtrip en (v : CreatedTimeProperty.t) :
  CreatedTimeProperty.validate (CreatedTimeProperty.dump en v) = Ok v.
Proof.
  unfold CreatedTimeProperty.validate, CreatedTimeProperty.dump. destruct v. read_back.
Qed.

Lemma DateProperty_roundtrip en (v : DateProperty.t) :
  DateProperty.validate (DateProperty.dump en v) = Ok v.
Proof.
  unfold DateProperty.validate, DateProperty.dump. destruct v. read_back.
  all: rewrite DateValue_roundtrip; reflexivity.
Qed.

Lemma EmailProperty_roundtrip en (v : EmailProperty.t) :
  EmailProperty.validate (EmailProperty.dump en v) = Ok v.
Proof.
  unfold EmailProperty.validate, EmailProperty.dump. destruct v. read_back.
Qed.

Lemma FilesProperty_roundtrip en (v : FilesProperty.t) :
  FilesProperty.validate (FilesProperty.dump en v) = Ok v.
Proof.
  unfold FilesProperty.validate, FilesProperty.dump. destruct v. read_back.
Qed.

Lemma LastEditedByProperty_roundtrip en (v : LastEditedByProperty.t) :
  LastEditedByProperty.validate (LastEditedByProperty.dump en v) = Ok v.
Proof.
  unfold LastEditedByProperty.validate, LastEditedByProperty.dump. destruct v. read_back.
Qed.

Lemma LastEditedTimeProperty_roundtrip en (v : LastEditedTimeProperty.t) :
  LastEditedTimeProperty.validate (LastEditedTimeProperty.dump en v) = Ok v.
Proof.
  unfold LastEditedTimeProperty.validate, LastEditedTimeProperty.dump. destruct v. read_back.
Qed.

Lemma MultiSelectProperty_roundtrip en (v : MultiSelectProperty.t) :
  MultiSelectProperty.validate (MultiSelectProperty.dump en v) = Ok v.
Proof.
  unfold MultiSelectProperty.validate, MultiSelectProperty.dump. destruct v. read_back.
Qed.

Lemma NumberProperty_roundtrip en (v : NumberProperty.t) :
  NumberProperty.validate (NumberProperty.dump en v) = Ok v.
Proof.
  unfold NumberProperty.validate, NumberProperty.dump. destruct v. read_back.
Qed.

Lemma PeopleProperty_roundtrip en (v : PeopleProperty.t) :
  PeopleProperty.validate (PeopleProperty.dump en v) = Ok v.
Proof.
  unfold PeopleProperty.validate, PeopleProperty.dump. destruct v. read_back.
Qed.

Lemma PhoneNumberProperty_roundtrip en (v : PhoneNumberProperty.t) :
  PhoneNumberProperty.validate (PhoneNumberProperty.dump en v) = Ok v.
Proof.
  unfold PhoneNumberProperty.validate, PhoneNumberProperty.dump. destruct v. read_back.
Qed.

Lemma RichTextProperty_roundtrip en (v : RichTextProperty.t) :
  RichTextProperty.validate (RichTextProperty.dump en v) = Ok v.
Proof.
  unfold RichTextProperty.validate, RichTextProperty.dump. destruct v. read_back.
Qed.

Lemma SelectProperty_roundtrip en (v : SelectProperty.t) :
  SelectProperty.validate (SelectProperty.dump en v) = Ok v.
Proof.
  unfold SelectProperty.validate, SelectProperty.dump. destruct v. read_back.
Qed.

Lemma StatusProperty_roundtrip en (v : StatusProperty.t) :
  StatusProperty.validate (StatusProperty.dump en v) = Ok v.
Proof.
  unfold StatusProperty.validate, StatusProperty.dump. destruct v. read_back.
Qed.

Lemma TitleProperty_roundtrip en (v : TitleProperty.t) :
  TitleProperty.validate (TitleProperty.dump en v) = Ok v.
Proof.
  unfold TitleProperty.validate, TitleProperty.dump. destruct v. read_back.
Qed.

Lemma URLProperty_roundtrip en (v : URLProperty.t) :
  URLProperty.validate (URLProperty.dump en v) = Ok v.
Proof.
  unfold URLProperty.validate, URLProperty.dump. destruct v. read_back.
Qed.

Lemma FormulaProperty_roundtrip en (v : FormulaProperty.t) :
  FormulaProperty.validate (FormulaProperty.dump en v) = Ok v.
Proof.
  unfold FormulaProperty.validate, FormulaProperty.dump. destruct v. read_back.
  all: rewrite FormulaData_roundtrip; reflexivity.
Qed.

Lemma RelationProperty_roundtrip en (v : RelationProperty.t) :
  RelationProperty.validate (RelationProperty.dump en v) = Ok v.
Proof.
  unfold RelationProperty.validate, RelationProperty.dump. destruct v. read_back.
  all: rewrite (list_roundtrip _ _ _ PageReference_roundtrip); reflexivity.
Qed.

Lemma UniqueIDProperty_roundtrip en (v : UniqueIDProperty.t) :
  UniqueIDProperty.validate (UniqueIDProperty.dump en v) = Ok v.
Proof.
  unfold UniqueIDProperty.validate, UniqueIDProperty.dump. destruct v. read_back.
  all: rewrite UniqueIDData_roundtrip; reflexivity.
Qed.

Lemma RollupProperty_roundtrip en (v : RollupProperty.t) :
  RollupData.constructible (RollupProperty.rollup v) ->
  RollupProperty.validate (RollupProperty.dump en v) = Ok v.
Proof.
  unfold RollupProperty.validate, RollupProperty.dump. destruct v.
  cbn [RollupProperty.rollup]. intros Hc. read_back.
  all: rewrite (RollupData_roundtrip _ _ Hc); reflexivity.
Qed.

Lemma VerificationProperty_roundtrip en (v : VerificationProperty.t) :
  VerificationData.constructible (VerificationProperty.verification v) ->
  VerificationProperty.validate (VerificationProperty.dump en v) = Ok v.
Proof.
  unfold VerificationProperty.validate, VerificationProperty.dump. destruct v.
  cbn [VerificationProperty.verification]. intros Hc. read_back.
  all: rewrite (VerificationData_roundtrip _ _ Hc); reflexivity.
Qed.

Lemma CheckboxProperty_roundtrip en (v : CheckboxProperty.t) :
  CheckboxProperty.validate (CheckboxProperty.dump en v) = Ok v.
Proof.
  unfold CheckboxProperty.validate, CheckboxProperty.dump. destruct v. read_back.
Qed.

Lemma CreatedByProperty_roundtrip en (v : CreatedByProperty.t) :
  CreatedByProperty.validate (CreatedByProperty.dump en v) = Ok v.
Proof.
  unfold CreatedByProperty.validate, CreatedByProperty.dump. destruct v. read_back.
Qed.

(** C1.  Round trip of the property union: for every value [v] that the
    constructors of the property classes admit, validating the object that
    dumping [v] produces gives [v] back, whether or not the dump leaves out
    the fields that are [None].  The formats and the classes of the other
    modules are taken with their own round-trip law. *)
Theorem PageProperty_validate_dump (exclude_none : bool) (v : PageProperty.t) :
  PageProperty.constructible v ->
  PageProperty.validate (PageProperty.dump exclude_none v) = Ok v.
Proof.
  unfold PageProperty.validate.
  destruct v as [p|p|p|p|p|p|p|p|p|p|p|p|p|p|p|p|p|p|p|p|p|p];
    cbn [PageProperty.dump PageProperty.constructible]; intros Hc.
  - by_class PageProperty.Checkbox p (CheckboxProperty_roundtrip exclude_none p).
  - by_class PageProperty.CreatedBy p (CreatedByProperty_roundtrip exclude_none p).
  - by_class PageProperty.CreatedTime p (CreatedTimeProperty_roundtrip exclude_none p).
  - by_class PageProperty.Date p (DateProperty_roundtrip exclude_none p).
  - by_class PageProperty.Email p (EmailProperty_roundtrip exclude_none p).
  - by_class PageProperty.Files p (FilesProperty_roundtrip exclude_none p).
  - by_class PageProperty.LastEditedBy p (LastEditedByProperty_roundtrip exclude_none p).
  - by_class PageProperty.LastEditedTime p (LastEditedTimeProperty_roundtrip exclude_none p).
  - by_class PageProperty.MultiSelect p (MultiSelectProperty_roundtrip exclude_none p).
  - by_class PageProperty.Number p (NumberProperty_roundtrip exclude_none p).
  - by_class PageProperty.People p (PeopleProperty_roundtrip exclude_none p).
  - by_class PageProperty.PhoneNumber p (PhoneNumberProperty_roundtrip exclude_none p).
  - by_class PageProperty.RichText p (RichTextProperty_roundtrip exclude_none p).
  - by_class PageProperty.Select p (SelectProperty_roundtrip exclude_none p).
  - by_class PageProperty.Status p (StatusProperty_roundtrip exclude_none p).
  - by_class PageProperty.Title p (TitleProperty_roundtrip exclude_none p).
  - by_class PageProperty.URL p (URLProperty_roundtrip exclude_none p).
  - by_class PageProperty.Formula p (FormulaProperty_roundtrip exclude_none p).
  - by_class PageProperty.Relation p (RelationProperty_roundtrip exclude_none p).
  - by_class PageProperty.Rollup p (RollupProperty_roundtrip exclude_none p Hc).
  - by_class PageProperty.UniqueID p (UniqueIDProperty_roundtrip exclude_none p).
  - by_class PageProperty.Verification p (VerificationProperty_roundtrip exclude_none p Hc).
Qed.
End roundtrip.

(* ================================================================== *)
(** ** The sample instance is lawful *)

Lemma text_lawful (ok : string -> bool) :
  Lawful (sample.text ok) (H := sample.text_codec ok).
Proof.
  split.
  - intros [s p]. cbn.
    assert (Hgen : forall (b : bool) (e : ok s = b), b = true ->
              (if b as b' return ok s = b' -> result (sample.text ok)
               then fun e' => Ok {| sample.chars := s; sample.chars_ok := e' |}
               else fun _ => Err (value_error "malformed")) e
              = Ok {| sample.chars := s; sample.chars_ok := p |}).
    { intros b e Hb. destruct b; [|discriminate].
      do 2 f_equal. apply UIP_dec, bool_dec. }
    apply Hgen, p.
  - intros a. cbn. discriminate.
Qed.

Lemma named_lawful : Lawful sample.named (H := sample.named_codec).
Proof.
  split.
  - intros [n]. reflexivity.
  - intros a. cbn. discriminate.
Qed.

Lemma block_lawful : Lawful block.RichTextObject (H := block.codec).
Proof.
  split.
  - intros [[] [c l] a]. destruct l, a; reflexivity.
  - intros a. cbn. discriminate.
Qed.

Lemma sample_formats_laws : FormatsLaws (H := sample.formats).
Proof. split; apply text_lawful. Qed.

Lemma sample_entities_laws : EntitiesLaws (H := sample.entities).
Proof. split; apply named_lawful. Qed.

(** C1 at a rollup property of the sample instance. *)
Lemma PageProperty_validate_dump_witness :
  let v : page_property.PageProperty.t (H := sample.formats)
            (H0 := sample.entities) (H1 := block.rich_text) :=
    page_property.PageProperty.Rollup
      {| page_property.RollupProperty.id := Some "vYdV";
         page_property.RollupProperty.type := pydantic.Lit "rollup";
         page_property.RollupProperty.rollup :=
           page_property.RollupData.Number
             {| page_property.NumberRollupData.type := pydantic.Lit "number";
                page_property.NumberRollupData.function := "sum";
                page_property.NumberRollupData.number := 3.5%float |} |} in
  page_property.PageProperty.constructible v
  /\ page_property.PageProperty.validate
       (page_property.PageProperty.dump true v) = Ok v.
Proof.
  intros v.
  assert (Hc : page_property.PageProperty.constructible v).
  { cbn. tauto. }
  split; [exact Hc|].
  exact (@PageProperty_validate_dump sample.formats sample_formats_laws
           sample.entities sample_entities_laws block.rich_text block_lawful
           true v Hc).
Defined.

(* ================================================================== *)
(** ** The discriminator *)

(** C8.  Discriminator fidelity: for every value [v] of the property
    union, the dumped object has the key [type], bound to the tag that the
    class of [v] fixes, and that tag is registered in the table of the
    union; this holds for each of the 22 classes and whether or not the
    dump leaves out the fields that are [None]. *)
Theorem PageProperty_dump_type `{Formats} `{Entities} `{RichText}
        (exclude_none : bool) (v : page_property.PageProperty.t) :
  exists o : obj,
    page_property.PageProperty.dump exclude_none v = JObj o
    /\ lookup "type" o = Some (JStr (page_property.PageProperty.tag v))
    /\ In (page_property.PageProperty.tag v)
          (map fst page_property.PageProperty.table).
Proof.
  destruct v as [p|p|p|p|p|p|p|p|p|p|p|p|p|p|p|p|p|p|p|p|p|p];
    destruct p as [i ty]; destruct i, exclude_none;
    eexists; (split; [reflexivity|]); (split; [reflexivity|]);
    cbn; tauto.
Qed.

(* ================================================================== *)
(** ** The factory of a date property *)

(** C2, as stated, fails: called with an end one day before the start,
    [DateProperty.new] returns a date property that holds the reversed
    range. *)
Lemma DateProperty_new_reversed_range :
  sample.before sample.may1 sample.may2
  /\ page_property.DateProperty.new (H := sample.formats)
       sample.may2 (Some sample.may1) None
     = Ok {| page_property.DateProperty.id := None;
             page_property.DateProperty.type := pydantic.Lit "date";
             page_property.DateProperty.date :=
               page_property.DateValue.Build_t (H := sample.formats)
                 sample.may2 (Some sample.may1) None |}.
Proof. split; reflexivity. Qed.

(** C2, amended.  [DateProperty.new] never fails: whatever the order of
    [start] and [end], it returns the date property with no [id] whose
    date holds [start], [end] and [time_zone] as they were given. *)
Theorem DateProperty_new_total `{Formats} (start : datetime)
        (end_ : option datetime) (time_zone : option string) :
  page_property.DateProperty.new start end_ time_zone
  = Ok {| page_property.DateProperty.id := None;
          page_property.DateProperty.type := pydantic.Lit "date";
          page_property.DateProperty.date :=
            {| page_property.DateValue.start := start;
               page_property.DateValue.end_ := end_;
               page_property.DateValue.time_zone := time_zone |} |}.
Proof. reflexivity. Qed.

(* ================================================================== *)
(** ** The paginated collection *)

Section paginated.
Context `{Formats} {TResult : Type} `{Codec TResult}.

Import base.

(** C3, amended.  In every validated page, [next_cursor] is the string of
    the payload, or [None] when the payload gives null or leaves the field
    out, and [has_more] is what the validator of booleans makes of the
    field of the payload: the two fields are validated each on its own,
    and no relation between them is checked. *)
Theorem NotionPaginatedData_cursor_as_given (o : obj)
        (v : NotionPaginatedData.t TResult) :
  NotionPaginatedData.validate (JObj o) = Ok v ->
  NotionPaginatedData.next_cursor v
  = match lookup "next_cursor" o with
    | Some (JStr s) => Some s
    | _ => None
    end
  /\ pydantic.required "has_more" pydantic.validate_bool o
     = Ok (NotionPaginatedData.has_more v).
Proof.
  unfold NotionPaginatedData.validate. cbn [pydantic.model_fields bind].
  destruct (pydantic.with_default "object" _ _ o); cbn [bind]; [|discriminate].
  destruct (pydantic.required "results" _ o); cbn [bind]; [|discriminate].
  destruct (pydantic.with_default "next_cursor" _ _ o) as [c|] eqn:Hc;
    cbn [bind]; [|discriminate].
  destruct (pydantic.required "has_more" _ o) as [m|]; cbn [bind];
    [|discriminate].
  destruct (pydantic.required "type" _ o); cbn [bind]; [|discriminate].
  destruct (pydantic.required "request_id" _ o); cbn [bind]; [|discriminate].
  destruct (pydantic.with_default "next_url" _ _ o); cbn [bind];
    [|discriminate].
  intros Hv. injection Hv as <-. cbn. split; [|reflexivity].
  unfold pydantic.with_default in Hc.
  destruct (lookup "next_cursor" o) as [[| | | |s| |]|]; cbn in Hc;
    congruence.
Qed.

(** C5.  Fail fast: when the payload lists its results, the page
    validates only if every result does.  If one element of the list
    fails to decode, the validation of the whole page fails; and a page
    that validates holds, in order, the decoding of each element of the
    list, so that no list of the valid elements alone is returned. *)
Theorem NotionPaginatedData_fail_fast (o : obj) (items : list json) :
  lookup "results" o = Some (JArr items) ->
  ((exists j e, In j items /\ decode j = Err e) ->
   exists e', NotionPaginatedData.validate (JObj o) = Err e')
  /\ (forall v : NotionPaginatedData.t TResult,
         NotionPaginatedData.validate (JObj o) = Ok v ->
         Forall2 (fun j r => decode j = Ok r) items
                 (NotionPaginatedData.results v)).
Proof.
  intros Hres. unfold NotionPaginatedData.validate.
  cbn [pydantic.model_fields bind].
  assert (Hlist : pydantic.required "results" (pydantic.validate_list decode) o
                  = pydantic.traverse decode items).
  { unfold pydantic.required. rewrite Hres. reflexivity. }
  rewrite Hlist. clear Hlist.
  destruct (pydantic.with_default "object" _ _ o); cbn [bind].
  - split.
    + intros (j & e & Hin & Hj).
      destruct (traverse_err decode items j e Hin Hj) as [e' He'].
      rewrite He'.
      cbn [bind]. eauto.
    + intros v. destruct (pydantic.traverse decode items) as [rs|] eqn:Hrs;
        cbn [bind]; [|discriminate].
      destruct (pydantic.with_default "next_cursor" _ _ o); cbn [bind];
        [|discriminate].
      destruct (pydantic.required "has_more" _ o); cbn [bind]; [|discriminate].
      destruct (pydantic.required "type" _ o); cbn [bind]; [|discriminate].
      destruct (pydantic.required "request_id" _ o); cbn [bind];
        [|discriminate].
      destruct (pydantic.with_default "next_url" _ _ o); cbn [bind];
        [|discriminate].
      intros Hv. injection Hv as <-. cbn. apply traverse_ok, Hrs.
  - split; [eauto | discriminate].
Qed.
End paginated.

(** C3, as stated, fails: the page that has [has_more] true and
    [next_cursor] null validates, into a value with [has_more] true and no
    cursor. *)
Lemma NotionPaginatedData_more_without_cursor :
  base.NotionPaginatedData.validate (H0 := sample.page_property_codec)
    (JObj sample.degraded_page) = Ok sample.degraded
  /\ base.NotionPaginatedData.has_more sample.degraded = true
  /\ base.NotionPaginatedData.next_cursor sample.degraded = None.
Proof. split; [reflexivity|]. split; reflexivity. Qed.

(** C3, amended, at the page that announces more results and gives no
    cursor. *)
Lemma NotionPaginatedData_cursor_as_given_witness :
  base.NotionPaginatedData.next_cursor sample.degraded = None
  /\ pydantic.required "has_more" pydantic.validate_bool sample.degraded_page
     = Ok (base.NotionPaginatedData.has_more sample.degraded).
Proof.
  exact (@NotionPaginatedData_cursor_as_given sample.formats _
           sample.page_property_codec sample.degraded_page sample.degraded
           eq_refl).
Defined.

(** C5 at the page whose results are two valid properties and a
    malformed one. *)
Lemma NotionPaginatedData_fail_fast_witness :
  exists e : ErrorType,
    base.NotionPaginatedData.validate (H := sample.formats)
      (H0 := sample.page_property_codec) (JObj sample.mixed_page) = Err e.
Proof.
  apply (proj1 (@NotionPaginatedData_fail_fast sample.formats _
                  sample.page_property_codec sample.mixed_page
                  [sample.checked; sample.checked; sample.malformed]
                  eq_refl)).
  exists sample.malformed, bool_parsing. split.
  - simpl. tauto.
  - reflexivity.
Defined.

(* ================================================================== *)
(** ** Rejections of the property union *)

Lemma choose_unregistered {A : Type} (tag : string)
      (table : list (string * (json -> result A))) :
  ~ In tag (map fst table) -> pydantic.choose tag table = None.
Proof.
  induction table as [|[t v] table IH]; simpl; intros Hnot.
  - reflexivity.
  - destruct (String.eqb_spec tag t) as [->|Hne].
    + exfalso. apply Hnot. left. reflexivity.
    + apply IH. intros Hin. apply Hnot. right. exact Hin.
Qed.

(** The fields every property class reads first: the [id] may be
    malformed, and the payload, whose key is the tag, is missing. *)
Lemma missing_payload {A P : Type} (tag : string) (v : json -> result P)
      (k : option string -> pydantic.Literal tag -> P -> result A) (o : obj) :
  lookup "type" o = Some (JStr tag) ->
  lookup tag o = None ->
  exists e,
    (id_ <- page_property.validate_id o ;;
     type_ <- page_property.validate_type tag o ;;
     p <- pydantic.required tag v o ;;
     k id_ type_ p) = Err e
    /\ classify e = ShapeMismatch.
Proof.
  intros Htype Hmiss.
  unfold page_property.validate_id, page_property.validate_type,
    pydantic.with_default, pydantic.required.
  rewrite Htype, Hmiss. cbn [pydantic.validate_Literal].
  rewrite String.eqb_refl.
  destruct (lookup "id" o) as [[| | | | | |]|]; cbn; eauto.
Qed.

Lemma fmap_err {A B : Type} (f : A -> B) (r : result A) :
  (exists e, r = Err e /\ classify e = ShapeMismatch) ->
  exists e, fmap f r = Err e /\ classify e = ShapeMismatch.
Proof. intros (e & -> & He). exists e. split; [reflexivity | exact He]. Qed.

Lemma validate_bool_error (j : json) (e : ErrorType) :
  pydantic.validate_bool j = Err e -> classify e = ShapeMismatch.
Proof.
  assert (Hint : forall n, pydantic.int_as_bool n = Err e ->
                           classify e = ShapeMismatch).
  { intros n. unfold pydantic.int_as_bool.
    destruct (n =? 0); [discriminate|].
    destruct (n =? 1); [discriminate|].
    intros [= <-]. reflexivity. }
  destruct j as [|b|n|x|s|l|o]; cbn.
  - intros [= <-]. reflexivity.
  - discriminate.
  - apply Hint.
  - destruct (pydantic.float_as_int x) as [n|e'].
    + apply Hint.
    + intros [= <-]. reflexivity.
  - unfold pydantic.str_as_bool.
    repeat match goal with
           | |- context [if ?b then _ else _] => destruct b
           end; try discriminate.
    intros [= <-]. reflexivity.
  - intros [= <-]. reflexivity.
  - intros [= <-]. reflexivity.
Qed.

Section rejections.
Context `{Formats} `{Entities} `{RichText}.

Import page_property.

(** Rejections, the part that needs nothing of the validators of the
    other modules: the object with tag ["checkbox"] whose checkbox is
    the string ["not-a-bool"] fails with a shape mismatch, and the object
    with tag ["mystery_kind"] fails with an unknown variant.  In general,
    an object whose tag is not registered in the table of the union fails
    with an unknown variant; an object whose tag is registered and whose
    required payload field, the one named as the tag, is absent fails
    with a shape mismatch (the payload of [phone_number] is optional);
    and an object with tag ["checkbox"] whose checkbox no boolean can be
    read from fails with a shape mismatch. *)
Theorem PageProperty_rejections :
  (exists e,
      PageProperty.validate
        (JObj [("type", JStr "checkbox"); ("checkbox", JStr "not-a-bool")])
      = Err e /\ classify e = ShapeMismatch)
  /\ (exists e,
         PageProperty.validate (JObj [("type", JStr "mystery_kind")]) = Err e
         /\ classify e = UnknownVariant)
  /\ (forall (o : obj) (tag : string),
         lookup "type" o = Some (JStr tag) ->
         ~ In tag (map fst PageProperty.table) ->
         exists e,
           PageProperty.validate (JObj o) = Err e
           /\ classify e = UnknownVariant)
  /\ (forall (o : obj) (tag : string),
         lookup "type" o = Some (JStr tag) ->
         In tag (map fst PageProperty.table) ->
         tag <> "phone_number" ->
         lookup tag o = None ->
         exists e,
           PageProperty.validate (JObj o) = Err e
           /\ classify e = ShapeMismatch)
  /\ (forall (o : obj) (j : json) (e0 : ErrorType),
         lookup "type" o = Some (JStr "checkbox") ->
         lookup "checkbox" o = Some j ->
         pydantic.validate_bool j = Err e0 ->
         exists e,
           PageProperty.validate (JObj o) = Err e
           /\ classify e = ShapeMismatch).
Proof.
  split; [|split; [|split; [|split]]].
  - exists bool_parsing. split; reflexivity.
  - exists union_tag_invalid. split; reflexivity.
  - intros o tag Htype Hnot. exists union_tag_invalid.
    split; [|reflexivity].
    unfold PageProperty.validate, pydantic.tagged_union.
    rewrite Htype, (choose_unregistered _ _ Hnot). reflexivity.
  - intros o tag Htype Hin Hphone Hmiss.
    unfold PageProperty.validate, pydantic.tagged_union. rewrite Htype.
    cbn [map fst PageProperty.table] in Hin.
    repeat (destruct Hin as [<- | Hin];
            [ try congruence;
              cbn [pydantic.choose PageProperty.table String.eqb Ascii.eqb
                   Bool.eqb];
              apply fmap_err;
              exact (missing_payload _ _ _ o Htype Hmiss)
            | ]).
    contradiction.
  - intros o j e0 Htype Hj Hbool.
    unfold PageProperty.validate, pydantic.tagged_union. rewrite Htype.
    cbn [pydantic.choose PageProperty.table String.eqb Ascii.eqb Bool.eqb].
    apply fmap_err.
    unfold CheckboxProperty.validate. cbn [pydantic.model_fields bind].
    unfold validate_id, validate_type, pydantic.with_default,
      pydantic.required.
    rewrite Htype, Hj, Hbool.
    apply validate_bool_error in Hbool.
    destruct (lookup "id" o) as [[| | | | | |]|]; cbn; eauto.
Qed.
End rejections.

(** These rejections at three objects of the sample instance: an
    unregistered tag, a
    registered tag without its payload, and a checkbox that is a number
    other than 0 and 1. *)
Lemma PageProperty_rejections_witness :
  (exists e,
      page_property.PageProperty.validate (H := sample.formats)
        (H0 := sample.entities) (H1 := block.rich_text)
        (JObj [("type", JStr "mystery_kind"); ("id", JStr "a%3Fb")]) = Err e
      /\ classify e = UnknownVariant)
  /\ (exists e,
         page_property.PageProperty.validate (H := sample.formats)
           (H0 := sample.entities) (H1 := block.rich_text)
           (JObj [("id", JStr "a%3Fb"); ("type", JStr "select")]) = Err e
         /\ classify e = ShapeMismatch)
  /\ (exists e,
         page_property.PageProperty.validate (H := sample.formats)
           (H0 := sample.entities) (H1 := block.rich_text)
           (JObj [("type", JStr "checkbox"); ("checkbox", JInt 2)]) = Err e
         /\ classify e = ShapeMismatch).
Proof.
  pose proof (@PageProperty_rejections sample.formats sample.entities
                block.rich_text) as (_ & _ & Hunknown & Hmissing & Hshape).
  split; [|split].
  - apply (Hunknown _ "mystery_kind").
    + reflexivity.
    + simpl. intuition discriminate.
  - apply (Hmissing _ "select").
    + reflexivity.
    + simpl. tauto.
    + discriminate.
    + reflexivity.
  - apply (Hshape _ (JInt 2) bool_parsing); reflexivity.
Defined.

(* ================================================================== *)
(** ** The nested union of a rollup *)

(** C6.  When ["sum"] is a member of [RollupFunctionLiteral], the rollup
    property whose inner object has tag ["number"] and the fields
    [number: 3.5] and [function: "sum"] validates into the rollup property
    whose value is the number case holding 3.5; the same object with the
    inner tag ["date"], which has no [date] field, fails with a shape
    mismatch, its [date] being missing. *)
Theorem RollupProperty_nested_union `{Formats} `{Entities} `{RichText} :
  In "sum" RollupFunctionLiteral ->
  page_property.PageProperty.validate
    (JObj [ ("type", JStr "rollup");
            ("rollup", JObj [ ("type", JStr "number");
                              ("number", JFloat 3.5);
                              ("function", JStr "sum") ]) ])
  = Ok (page_property.PageProperty.Rollup
          {| page_property.RollupProperty.id := None;
             page_property.RollupProperty.type := pydantic.Lit "rollup";
             page_property.RollupProperty.rollup :=
               page_property.RollupData.Number
                 {| page_property.NumberRollupData.type :=
                      pydantic.Lit "number";
                    page_property.NumberRollupData.function := "sum";
                    page_property.NumberRollupData.number := 3.5%float |} |})
  /\ page_property.PageProperty.validate
       (JObj [ ("type", JStr "rollup");
               ("rollup", JObj [ ("type", JStr "date");
                                 ("number", JFloat 3.5);
                                 ("function", JStr "sum") ]) ])
     = Err missing
  /\ classify missing = ShapeMismatch.
Proof.
  intros Hsum.
  pose proof (validate_literal_member _ _ Hsum) as Hfn.
  split; [|split; [|reflexivity]].
  - cbn -[pydantic.validate_literal]. rewrite Hfn. reflexivity.
  - cbn -[pydantic.validate_literal]. rewrite Hfn. reflexivity.
Qed.

(** C6 at the sample instance. *)
Lemma RollupProperty_nested_union_witness :
  page_property.PageProperty.validate (H := sample.formats)
    (H0 := sample.entities) (H1 := block.rich_text)
    (JObj [ ("type", JStr "rollup");
            ("rollup", JObj [ ("type", JStr "date");
                              ("number", JFloat 3.5);
                              ("function", JStr "sum") ]) ])
  = Err missing.
Proof.
  refine (proj1 (proj2 (@RollupProperty_nested_union sample.formats
                          sample.entities block.rich_text _))).
  simpl. tauto.
Defined.

(* ================================================================== *)
(** ** The factory of a title property *)

Section title.
#[local] Existing Instance block.rich_text.

(** C7.  [TitleProperty.new] on a plain string returns the title property
    with no [id] whose title is the single span of type ["text"] that
    holds the string, with no link and no annotations; validating the
    object [{title: [{type: "text", text: {content: ...}}]}] returns the
    same value, and the two dump to the same object.  In particular this
    holds for ["Hello"]. *)
Theorem TitleProperty_new_as_validated (text : string) :
  let manual :=
    JObj [ ("title",
            JArr [ JObj [ ("type", JStr "text");
                          ("text", JObj [ ("content", JStr text) ]) ] ]) ] in
  page_property.TitleProperty.new text
  = Ok (@page_property.TitleProperty.Build_t block.rich_text
          None (pydantic.Lit "title")
          [ {| block.type := pydantic.Lit "text";
               block.text := {| block.content := text;
                                block.link := None |};
               block.annotations := None |} ])
  /\ page_property.TitleProperty.validate manual
     = page_property.TitleProperty.new text
  /\ (forall exclude_none : bool,
         fmap (page_property.TitleProperty.dump exclude_none)
              (page_property.TitleProperty.new text)
         = fmap (page_property.TitleProperty.dump exclude_none)
                (page_property.TitleProperty.validate manual))
  /\ page_property.TitleProperty.new "Hello"
     = page_property.TitleProperty.validate
         (JObj [ ("title",
                  JArr [ JObj [ ("type", JStr "text");
                                ("text",
                                 JObj [ ("content", JStr "Hello") ]) ] ]) ]).
Proof.
  cbv zeta. split; [reflexivity|]. split; [reflexivity|].
  split; [intros en; reflexivity | reflexivity].
Qed.
End title.

(* ================================================================== *)
(** ** The two [CreateCommentRequest] *)

(** C9.  The two classes named [CreateCommentRequest] do not validate the
    same objects: the empty object validates as the class of
    [api/comments.py], whose two fields are optional, and is rejected by
    the class of [endpoints/comments.py], whose [rich_text] is missing. *)
Theorem CreateCommentRequest_not_equivalent `{Formats} `{RichText} :
  api_comments.CreateCommentRequest.validate (JObj [])
  = Ok {| api_comments.CreateCommentRequest.start_cursor := None;
          api_comments.CreateCommentRequest.page_size := None |}
  /\ endpoints_comments.CreateCommentRequest.validate (JObj [])
     = Err missing.
Proof. split; reflexivity. Qed.

(* ================================================================== *)
(** ** The bounds of [page_size] *)

Section page_size.
Context `{Formats} `{RichText}.

Lemma PageSize_int (n : Z) :
  is_ok (base.validate_PageSize (JInt n)) = true <-> 0 < n <= 100.
Proof.
  cbn. unfold pydantic.le, pydantic.gt.
  destruct (Z.leb_spec n 100); cbn.
  - destruct (Z.ltb_spec 0 n); cbn; split; intros; try lia; try discriminate;
      reflexivity.
  - split; intros; [discriminate | lia].
Qed.

Lemma PageSize_field (o : obj) :
  (lookup "page_size" o = None ->
   pydantic.with_default "page_size" base.validate_PageSize None o = Ok None)
  /\ (forall n : Z,
         lookup "page_size" o = Some (JInt n) ->
         pydantic.with_default "page_size" base.validate_PageSize None o
         = base.validate_PageSize (JInt n)).
Proof.
  unfold pydantic.with_default. split.
  - intros ->. reflexivity.
  - intros n ->. reflexivity.
Qed.

Lemma PageSize_bounds (j : json) (size : base.PageSize) :
  base.validate_PageSize j = Ok size ->
  match size with
  | Some n => 0 < n <= 100
  | None => True
  end.
Proof.
  assert (Hint : forall r : result Z,
             fmap Some (n <- r ;; n <- pydantic.le 100 n ;; pydantic.gt 0 n)
             = Ok size ->
             match size with Some n => 0 < n <= 100 | None => True end).
  { intros [n|e]; cbn; [|discriminate].
    unfold pydantic.le, pydantic.gt.
    destruct (Z.leb_spec n 100); cbn; [|discriminate].
    destruct (Z.ltb_spec 0 n); cbn; [|discriminate].
    intros [= <-]. lia. }
  unfold base.validate_PageSize, pydantic.nullable.
  destruct j; try apply Hint.
  intros [= <-]. exact I.
Qed.

(** Settles the rule for one class, once the fields before and after
    [page_size] are known to be valid. *)
Ltac settle_rule :=
  split;
  [ intros Habsent; rewrite (proj1 (PageSize_field _) Habsent); cbn;
    repeat match goal with
           | |- context [bind ?r _] =>
               destruct r; cbn in *; try discriminate
           end;
    reflexivity
  | intros n Hn; rewrite (proj2 (PageSize_field _) n Hn);
    rewrite <- PageSize_int;
    destruct (base.validate_PageSize (JInt n)); cbn;
    repeat match goal with
           | |- context [bind ?r _] =>
               destruct r; cbn in *; try discriminate
           end;
    tauto ].

(** The rule of [page_size] over integers.  Each of the four request
    classes that carry [page_size] ([CreateCommentRequest] and [RetrieveCommentsRequest], of
    [api/comments.py] and of [endpoints/comments.py]) follows the rule of
    the field, on every object whose other fields are valid: the object
    validates when [page_size] is left out, and, when [page_size] is an
    integer [n], it validates if and only if [0 < n <= 100]; so 0, a
    negative integer and an integer above 100 make the validation fail.
    Whatever the raw value of the field, a [page_size] that has been
    validated is [None] or an integer [n] with [0 < n <= 100]. *)
Theorem page_size_rule_of_requests :
  (forall o : obj,
      is_ok (pydantic.with_default "start_cursor" base.validate_StartCursor
               None o) = true ->
      page_size_rule api_comments.CreateCommentRequest.validate o)
  /\ (forall o : obj,
         is_ok (pydantic.required "block_id" pydantic.validate_str o) = true ->
         is_ok (pydantic.with_default "start_cursor"
                  base.validate_StartCursor None o) = true ->
         page_size_rule api_comments.RetrieveCommentsRequest.validate o)
  /\ (forall o : obj,
         is_ok (pydantic.with_default "start_cursor"
                  base.validate_StartCursor None o) = true ->
         is_ok (pydantic.required "rich_text"
                  (pydantic.validate_list (decode (A := RichTextObject))) o)
         = true ->
         page_size_rule endpoints_comments.CreateCommentRequest.validate o)
  /\ (forall o : obj,
         is_ok (pydantic.required "block_id" (decode (A := UUID)) o) = true ->
         is_ok (pydantic.with_default "start_cursor"
                  base.validate_StartCursor None o) = true ->
         page_size_rule endpoints_comments.RetrieveCommentsRequest.validate o)
  /\ (forall (j : json) (size : base.PageSize),
         base.validate_PageSize j = Ok size ->
         match size with
         | Some n => 0 < n <= 100
         | None => True
         end).
Proof.
  split; [|split; [|split; [|split; [|exact PageSize_bounds]]]].
  - intros o Hcursor.
    unfold page_size_rule, api_comments.CreateCommentRequest.validate.
    cbn [pydantic.model_fields bind].
    destruct (pydantic.with_default "start_cursor" _ _ o); [|discriminate].
    cbn [bind]. settle_rule.
  - intros o Hblock Hcursor.
    unfold page_size_rule, api_comments.RetrieveCommentsRequest.validate.
    cbn [pydantic.model_fields bind].
    destruct (pydantic.required "block_id" _ o); [|discriminate].
    destruct (pydantic.with_default "start_cursor" _ _ o); [|discriminate].
    cbn [bind]. settle_rule.
  - intros o Hcursor Htext.
    unfold page_size_rule, endpoints_comments.CreateCommentRequest.validate.
    cbn [pydantic.model_fields bind].
    destruct (pydantic.with_default "start_cursor" _ _ o); [|discriminate].
    destruct (pydantic.required "rich_text" _ o); [|discriminate].
    cbn [bind]. settle_rule.
  - intros o Hblock Hcursor.
    unfold page_size_rule, endpoints_comments.RetrieveCommentsRequest.validate.
    cbn [pydantic.model_fields bind].
    destruct (pydantic.required "block_id" _ o); [|discriminate].
    destruct (pydantic.with_default "start_cursor" _ _ o); [|discriminate].
    cbn [bind]. settle_rule.
Qed.
End page_size.

(** The rule over integers at three requests for the comments of a
    block: one with no
    [page_size], one that asks for 100 results and one that asks for
    101. *)
Lemma page_size_rule_of_requests_witness :
  is_ok (api_comments.RetrieveCommentsRequest.validate (H := sample.formats)
           (JObj (sample.comments_of_block None))) = true
  /\ is_ok (api_comments.RetrieveCommentsRequest.validate
              (H := sample.formats)
              (JObj (sample.comments_of_block (Some 100)))) = true
  /\ is_ok (api_comments.RetrieveCommentsRequest.validate
              (H := sample.formats)
              (JObj (sample.comments_of_block (Some 101)))) <> true.
Proof.
  pose proof (proj1 (proj2 (@page_size_rule_of_requests sample.formats
                              block.rich_text))) as Hrule.
  split; [|split].
  - apply (Hrule (sample.comments_of_block None) eq_refl eq_refl).
    reflexivity.
  - apply (proj2 (Hrule (sample.comments_of_block (Some 100))
                    eq_refl eq_refl) 100 eq_refl).
    lia.
  - intros Hok.
    apply (proj2 (Hrule (sample.comments_of_block (Some 101))
                    eq_refl eq_refl) 101 eq_refl) in Hok.
    lia.
Defined.

(* ================================================================== *)
(** ** Further properties of the paginated collection *)

(** X1.  Round trip of a page: when the elements and the request
    identifier round-trip, validating the object that dumping a page
    produces gives the page back, with its results in order, whether or
    not the dump leaves out the fields that are [None]. *)
Theorem NotionPaginatedData_validate_dump `{FormatsLaws} {TResult : Type}
        `{Lawful TResult} (exclude_none : bool)
        (v : base.NotionPaginatedData.t TResult) :
  base.NotionPaginatedData.validate
    (base.NotionPaginatedData.dump exclude_none v) = Ok v.
Proof.
  unfold base.NotionPaginatedData.validate, base.NotionPaginatedData.dump.
  destruct v as [[] rs cursor more ty rid url].
  cbn [base.NotionPaginatedData.object base.NotionPaginatedData.results
       base.NotionPaginatedData.next_cursor base.NotionPaginatedData.has_more
       base.NotionPaginatedData.type base.NotionPaginatedData.request_id
       base.NotionPaginatedData.next_url].
  pose proof (list_encode rs) as Hrs.
  pose proof (decode_encode rid) as Hrid.
  destruct cursor, url, exclude_none, ty;
    cbn -[pydantic.validate_list pydantic.dump_list];
    rewrite Hrs; cbn; rewrite Hrid; reflexivity.
Qed.

(** X1 at a page of two users. *)
Lemma NotionPaginatedData_validate_dump_witness :
  base.NotionPaginatedData.validate (H := sample.formats)
    (H0 := sample.named_codec)
    (base.NotionPaginatedData.dump (H0 := sample.named_codec) true
       sample.users_page)
  = Ok sample.users_page.
Proof.
  exact (@NotionPaginatedData_validate_dump sample.formats sample_formats_laws
           sample.named sample.named_codec named_lawful true
           sample.users_page).
Defined.

(** X2.  The [type] of a page is one of the seven names of
    [NotionPaginatedDataTypeLiteral] and nothing else: a string validates
    as the member [t] exactly when it is the name of [t], so that distinct
    members have distinct names, and a value that is not a string is
    rejected. *)
Theorem NotionPaginatedDataTypeLiteral_names :
  (forall (s : string) (t : base.NotionPaginatedDataTypeLiteral),
      base.validate_type (JStr s) = Ok t <-> base.type_name t = s)
  /\ (forall j : json,
         (forall s, j <> JStr s) -> base.validate_type j = Err literal_error).
Proof.
  split.
  - intros s t. split.
    + unfold base.validate_type.
      repeat match goal with
             | |- context [String.eqb s ?name] =>
                 destruct (String.eqb_spec s name) as [->|_];
                 [intros [= <-]; reflexivity|]
             end.
      discriminate.
    + intros <-. destruct t; reflexivity.
  - intros j Hnot. destruct j; try reflexivity.
    exfalso. exact (Hnot s eq_refl).
Qed.

Section paginated_fields.
Context `{Formats} {TResult : Type} `{Codec TResult}.

(** X3.  The fields [results], [has_more], [type] and [request_id] of a
    page are required: an object that lacks one of them does not
    validate.  The fields [object], [next_cursor] and [next_url] may be
    left out: a page validated from an object that lacks [next_url] has no
    next URL. *)
Theorem NotionPaginatedData_required_fields (o : obj) :
  (forall k : string,
      In k ["results"; "has_more"; "type"; "request_id"] ->
      lookup k o = None ->
      exists e, base.NotionPaginatedData.validate (TResult := TResult)
                  (JObj o) = Err e)
  /\ (forall v : base.NotionPaginatedData.t TResult,
         base.NotionPaginatedData.validate (JObj o) = Ok v ->
         lookup "next_url" o = None ->
         base.NotionPaginatedData.next_url v = None).
Proof.
  unfold base.NotionPaginatedData.validate.
  cbn [pydantic.model_fields bind].
  split.
  - intros k Hk Hmiss.
    assert (Hreq : forall (A : Type) (f : json -> result A),
               pydantic.required k f o = Err missing).
    { intros A f. unfold pydantic.required. rewrite Hmiss. reflexivity. }
    destruct (pydantic.with_default "object" _ _ o); cbn [bind]; [|eauto].
    cbn [In] in Hk. destruct Hk as [<-|Hk].
    { rewrite Hreq. cbn. eauto. }
    destruct (pydantic.required "results" _ o); cbn [bind]; [|eauto].
    destruct (pydantic.with_default "next_cursor" _ _ o); cbn [bind];
      [|eauto].
    destruct Hk as [<-|Hk].
    { rewrite Hreq. cbn. eauto. }
    destruct (pydantic.required "has_more" _ o); cbn [bind]; [|eauto].
    destruct Hk as [<-|Hk].
    { rewrite Hreq. cbn. eauto. }
    destruct (pydantic.required "type" _ o); cbn [bind]; [|eauto].
    destruct Hk as [<-|[]].
    rewrite Hreq. cbn. eauto.
  - intros v Hv Hmiss. revert Hv.
    destruct (pydantic.with_default "object" _ _ o); cbn [bind];
      [|discriminate].
    destruct (pydantic.required "results" _ o); cbn [bind]; [|discriminate].
    destruct (pydantic.with_default "next_cursor" _ _ o); cbn [bind];
      [|discriminate].
    destruct (pydantic.required "has_more" _ o); cbn [bind]; [|discriminate].
    destruct (pydantic.required "type" _ o); cbn [bind]; [|discriminate].
    destruct (pydantic.required "request_id" _ o); cbn [bind];
      [|discriminate].
    unfold pydantic.with_default. rewrite Hmiss. cbn [bind].
    intros [= <-]. reflexivity.
Qed.
End paginated_fields.

(** X3 at the page that lacks its [request_id]. *)
Lemma NotionPaginatedData_required_fields_witness :
  exists e,
    base.NotionPaginatedData.validate (H := sample.formats)
      (H0 := sample.named_codec)
      (JObj [ ("results", JArr []); ("has_more", JBool false);
              ("type", JStr "user") ]) = Err e.
Proof.
  apply (proj1 (@NotionPaginatedData_required_fields sample.formats
                  sample.named sample.named_codec _) "request_id").
  - simpl. tauto.
  - reflexivity.
Defined.

(* ================================================================== *)
(** ** Further properties of the request classes *)

Section requests.
Context `{Formats} `{RichText}.

(** X4.  A request class reads its declared fields and nothing else: two
    objects that agree on the declared fields of a class validate to the
    same result, so a member under any other key is ignored.  This holds
    for the four request classes. *)
Theorem requests_read_declared_fields (o o' : obj) :
  (same_on api_comments.CreateCommentRequest.field_names o o' ->
   api_comments.CreateCommentRequest.validate (JObj o)
   = api_comments.CreateCommentRequest.validate (JObj o'))
  /\ (same_on api_comments.RetrieveCommentsRequest.field_names o o' ->
      api_comments.RetrieveCommentsRequest.validate (JObj o)
      = api_comments.RetrieveCommentsRequest.validate (JObj o'))
  /\ (same_on endpoints_comments.CreateCommentRequest.field_names o o' ->
      endpoints_comments.CreateCommentRequest.validate (JObj o)
      = endpoints_comments.CreateCommentRequest.validate (JObj o'))
  /\ (same_on endpoints_comments.RetrieveCommentsRequest.field_names o o' ->
      endpoints_comments.RetrieveCommentsRequest.validate (JObj o)
      = endpoints_comments.RetrieveCommentsRequest.validate (JObj o')).
Proof.
  split; [|split; [|split]]; intros Hsame.
  - unfold api_comments.CreateCommentRequest.validate,
      pydantic.with_default.
    cbn [pydantic.model_fields bind].
    rewrite (Hsame "start_cursor"), (Hsame "page_size") by (simpl; tauto).
    reflexivity.
  - unfold api_comments.RetrieveCommentsRequest.validate,
      pydantic.with_default, pydantic.required.
    cbn [pydantic.model_fields bind].
    rewrite (Hsame "block_id"), (Hsame "start_cursor"), (Hsame "page_size")
      by (simpl; tauto).
    reflexivity.
  - unfold endpoints_comments.CreateCommentRequest.validate,
      pydantic.with_default, pydantic.required.
    cbn [pydantic.model_fields bind].
    rewrite (Hsame "start_cursor"), (Hsame "page_size"), (Hsame "rich_text")
      by (simpl; tauto).
    reflexivity.
  - unfold endpoints_comments.RetrieveCommentsRequest.validate,
      pydantic.with_default, pydantic.required.
    cbn [pydantic.model_fields bind].
    rewrite (Hsame "block_id"), (Hsame "start_cursor"), (Hsame "page_size")
      by (simpl; tauto).
    reflexivity.
Qed.

(** X5.  Every object that validates as the [CreateCommentRequest] of
    [endpoints/comments.py] validates as the [CreateCommentRequest] of
    [api/comments.py], with the same [start_cursor] and [page_size]: the
    first class is the second with [rich_text] added and required. *)
Theorem CreateCommentRequest_endpoints_refines_api (o : obj)
        (v : endpoints_comments.CreateCommentRequest.t) :
  endpoints_comments.CreateCommentRequest.validate (JObj o) = Ok v ->
  api_comments.CreateCommentRequest.validate (JObj o)
  = Ok {| api_comments.CreateCommentRequest.start_cursor :=
            endpoints_comments.CreateCommentRequest.start_cursor v;
          api_comments.CreateCommentRequest.page_size :=
            endpoints_comments.CreateCommentRequest.page_size v |}.
Proof.
  unfold endpoints_comments.CreateCommentRequest.validate,
    api_comments.CreateCommentRequest.validate.
  cbn [pydantic.model_fields bind].
  destruct (pydantic.with_default "start_cursor" _ _ o); cbn [bind];
    [|discriminate].
  destruct (pydantic.with_default "page_size" _ _ o); cbn [bind];
    [|discriminate].
  destruct (pydantic.required "rich_text" _ o); cbn [bind]; [|discriminate].
  intros [= <-]. reflexivity.
Qed.

(** X6.  The [RetrieveCommentsRequest] of [api/comments.py] requires
    [block_id] and takes it as it is written: in every object that
    validates, [block_id] is bound to a string, and the validated request
    holds that string; its [start_cursor] is the string of the object, or
    [None] when the object gives null or leaves the field out. *)
Theorem RetrieveCommentsRequest_block_id_verbatim (o : obj)
        (v : api_comments.RetrieveCommentsRequest.t) :
  api_comments.RetrieveCommentsRequest.validate (JObj o) = Ok v ->
  lookup "block_id" o
  = Some (JStr (api_comments.RetrieveCommentsRequest.block_id v))
  /\ api_comments.RetrieveCommentsRequest.start_cursor v
     = match lookup "start_cursor" o with
       | Some (JStr s) => Some s
       | _ => None
       end.
Proof.
  unfold api_comments.RetrieveCommentsRequest.validate,
    pydantic.required, pydantic.with_default at 1,
    base.validate_StartCursor.
  cbn [pydantic.model_fields bind].
  destruct (lookup "block_id" o) as [[| | | |b| |]|]; cbn; try discriminate.
  destruct (lookup "start_cursor" o) as [[| | | |c| |]|]; cbn;
    try discriminate.
  all: destruct (pydantic.with_default "page_size" _ _ o); cbn;
    [|discriminate].
  all: intros [= <-]; split; reflexivity.
Qed.
End requests.

(** X4 at a request and the same request with a member the class does
    not declare. *)
Lemma requests_read_declared_fields_witness :
  api_comments.RetrieveCommentsRequest.validate (H := sample.formats)
    (JObj (sample.comments_of_block (Some 50)))
  = api_comments.RetrieveCommentsRequest.validate (H := sample.formats)
      (JObj (("workspace", JStr "acme")
             :: sample.comments_of_block (Some 50))).
Proof.
  apply (proj1 (proj2 (@requests_read_declared_fields sample.formats
                         block.rich_text
                         (sample.comments_of_block (Some 50))
                         (("workspace", JStr "acme")
                          :: sample.comments_of_block (Some 50))))).
  intros k Hk. simpl in Hk.
  destruct Hk as [<-|[<-|[<-|[]]]]; reflexivity.
Defined.

(** X5 at a request that carries one span. *)
Lemma CreateCommentRequest_endpoints_refines_api_witness :
  api_comments.CreateCommentRequest.validate (H := sample.formats)
    (JObj sample.comment_of_one_span)
  = Ok {| api_comments.CreateCommentRequest.start_cursor := None;
          api_comments.CreateCommentRequest.page_size := Some 25 |}.
Proof.
  exact (@CreateCommentRequest_endpoints_refines_api sample.formats
           block.rich_text sample.comment_of_one_span
           (@endpoints_comments.CreateCommentRequest.Build_t block.rich_text
              None (Some 25) [block.new_text "Hi"])
           eq_refl).
Defined.

(** X6 at a request with a page size. *)
Lemma RetrieveCommentsRequest_block_id_verbatim_witness :
  lookup "block_id" (sample.comments_of_block (Some 50))
  = Some (JStr "0e5235bf-86aa-4efb-93aa-772cce7eab71").
Proof.
  exact (proj1 (@RetrieveCommentsRequest_block_id_verbatim sample.formats
                  (sample.comments_of_block (Some 50))
                  {| api_comments.RetrieveCommentsRequest.block_id :=
                       "0e5235bf-86aa-4efb-93aa-772cce7eab71";
                     api_comments.RetrieveCommentsRequest.start_cursor := None;
                     api_comments.RetrieveCommentsRequest.page_size :=
                       Some 50 |}
                  eq_refl)).
Defined.

(* ================================================================== *)
(** ** Further properties of the factories *)

Lemma traverse_init `{Formats} (ids : list UUID) :
  pydantic.traverse page_property.PageReference.init ids
  = Ok (map page_property.PageReference.Build_t ids).
Proof.
  induction ids as [|i ids IH]; simpl.
  - reflexivity.
  - rewrite IH. reflexivity.
Qed.

(** X7.  [RelationProperty.create] never fails: it returns the relation
    property with no [id] and no [has_more] whose references are the
    identifiers it was given, one reference each, in the same order. *)
Theorem RelationProperty_create_refs `{Formats} (ids : list UUID) :
  page_property.RelationProperty.create ids
  = Ok {| page_property.RelationProperty.id := None;
          page_property.RelationProperty.type := pydantic.Lit "relation";
          page_property.RelationProperty.relation :=
            map page_property.PageReference.Build_t ids;
          page_property.RelationProperty.has_more := None |}.
Proof.
  unfold page_property.RelationProperty.create.
  rewrite traverse_init. reflexivity.
Qed.

(** X8.  What [RelationProperty.create] returns is what validation
    returns: when identifiers round-trip, the property the factory builds
    is given back by validating its dump, whether or not the dump leaves
    out the fields that are [None]. *)
Theorem RelationProperty_create_validated `{FormatsLaws}
        (exclude_none : bool) (ids : list UUID) :
  exists v : page_property.RelationProperty.t,
    page_property.RelationProperty.create ids = Ok v
    /\ page_property.RelationProperty.validate
         (page_property.RelationProperty.dump exclude_none v) = Ok v.
Proof.
  unfold page_property.RelationProperty.create.
  rewrite traverse_init. cbn [bind]. eexists. split; [reflexivity|].
  apply RelationProperty_roundtrip.
Qed.

(** X8 at two identifiers. *)
Lemma RelationProperty_create_validated_witness :
  exists v : page_property.RelationProperty.t (H := sample.formats),
    page_property.RelationProperty.create (H := sample.formats)
      [sample.request; sample.request] = Ok v
    /\ page_property.RelationProperty.validate
         (page_property.RelationProperty.dump true v) = Ok v.
Proof.
  exact (@RelationProperty_create_validated sample.formats
           sample_formats_laws true [sample.request; sample.request]).
Defined.

(** X9.  What [DateProperty.new] returns is what validation returns:
    when datetimes round-trip, the property the factory builds from a
    start, an optional end and an optional time zone is given back by
    validating its dump, whether or not the dump leaves out the fields
    that are [None]. *)
Theorem DateProperty_new_validated `{FormatsLaws} (exclude_none : bool)
        (start : datetime) (end_ : option datetime)
        (time_zone : option string) :
  exists v : page_property.DateProperty.t,
    page_property.DateProperty.new start end_ time_zone = Ok v
    /\ page_property.DateProperty.validate
         (page_property.DateProperty.dump exclude_none v) = Ok v.
Proof.
  eexists. split; [reflexivity|]. apply DateProperty_roundtrip.
Qed.

(** X9 at a date of one day. *)
Lemma DateProperty_new_validated_witness :
  exists v : page_property.DateProperty.t (H := sample.formats),
    page_property.DateProperty.new (H := sample.formats) sample.may1
      (Some sample.may2) (Some "Europe/Paris") = Ok v
    /\ page_property.DateProperty.validate
         (page_property.DateProperty.dump true v) = Ok v.
Proof.
  exact (@DateProperty_new_validated sample.formats sample_formats_laws
           true sample.may1 (Some sample.may2) (Some "Europe/Paris")).
Defined.

(* ================================================================== *)
(** ** Further properties of relations and dates *)

Section relation_and_date.
Context `{Formats}.

(** X10.  Validation never truncates a relation: a relation property
    validated from an object that lists its references holds the decoding
    of each of them, in order and as many as were listed, and its
    [has_more] is what the object gives, whatever the length of the
    list. *)
Theorem RelationProperty_keeps_every_reference (o : obj)
        (items : list json) (v : page_property.RelationProperty.t) :
  lookup "relation" o = Some (JArr items) ->
  page_property.RelationProperty.validate (JObj o) = Ok v ->
  Forall2 (fun j r => page_property.PageReference.validate j = Ok r)
          items (page_property.RelationProperty.relation v)
  /\ length (page_property.RelationProperty.relation v) = length items
  /\ pydantic.with_default "has_more"
       (pydantic.nullable pydantic.validate_bool) None o
     = Ok (page_property.RelationProperty.has_more v).
Proof.
  intros Hrel. unfold page_property.RelationProperty.validate.
  cbn [pydantic.model_fields bind].
  destruct (page_property.validate_id o); cbn [bind]; [|discriminate].
  destruct (page_property.validate_type "relation" o); cbn [bind];
    [|discriminate].
  unfold pydantic.required. rewrite Hrel. cbn [pydantic.validate_list].
  destruct (pydantic.traverse _ items) as [refs|] eqn:Hrefs; cbn [bind];
    [|discriminate].
  destruct (pydantic.with_default "has_more" _ _ o); cbn [bind];
    [|discriminate].
  intros [= <-]. cbn. apply traverse_ok in Hrefs.
  split; [exact Hrefs|]. split; [|reflexivity].
  symmetry. exact (Forall2_length Hrefs).
Qed.

(** X11.  A validated date has no end exactly when the object gives
    none: [end] is [None] if and only if the object leaves [end] out or
    gives null for it; the start is never taken for the end. *)
Theorem DateValue_end_absent (o : obj) (v : page_property.DateValue.t) :
  page_property.DateValue.validate (JObj o) = Ok v ->
  (page_property.DateValue.end_ v = None
   <-> lookup "end" o = None \/ lookup "end" o = Some JNull).
Proof.
  unfold page_property.DateValue.validate.
  cbn [pydantic.model_fields bind].
  destruct (pydantic.required "start" _ o); cbn [bind]; [|discriminate].
  unfold pydantic.with_default at 1, pydantic.nullable at 1.
  destruct (lookup "end" o) as [j|].
  - destruct j; cbn [bind fmap];
      try (destruct (decode _); cbn [bind fmap]; [|discriminate]);
      (destruct (pydantic.with_default "time_zone" _ _ o); cbn [bind];
       [|discriminate]);
      intros [= <-]; cbn; split;
      solve [ intros; auto | discriminate | intros [|]; discriminate ].
  - cbn [bind].
    destruct (pydantic.with_default "time_zone" _ _ o); cbn [bind];
      [|discriminate].
    intros [= <-]. cbn. split; auto.
Qed.

(** X12.  How a date is dumped: [start] is always written; an [end] that
    is set is written as the datetime is serialised; an [end] that is
    [None] is written as null, or left out when the dump excludes
    [None]. *)
Theorem DateValue_dump_end (exclude_none : bool)
        (v : page_property.DateValue.t) :
  exists o : obj,
    page_property.DateValue.dump exclude_none v = JObj o
    /\ lookup "start" o = Some (encode (page_property.DateValue.start v))
    /\ lookup "end" o
       = match page_property.DateValue.end_ v with
         | Some e => Some (encode e)
         | None => if exclude_none then None else Some JNull
         end.
Proof.
  destruct v as [s e z]. eexists. split; [reflexivity|].
  destruct e, z, exclude_none; split; reflexivity.
Qed.
End relation_and_date.

(** X10 at a relation of two references that says it has more. *)
Lemma RelationProperty_keeps_every_reference_witness :
  length (page_property.RelationProperty.relation sample.kept_relation)
  = length [sample.reference; sample.reference]
  /\ pydantic.with_default "has_more"
       (pydantic.nullable pydantic.validate_bool) None
       sample.truncated_relation
     = Ok (page_property.RelationProperty.has_more sample.kept_relation).
Proof.
  exact (proj2 (@RelationProperty_keeps_every_reference sample.formats
                  sample.truncated_relation
                  [sample.reference; sample.reference]
                  sample.kept_relation eq_refl eq_refl)).
Defined.

(** X11 at a date with a start and nothing else. *)
Lemma DateValue_end_absent_witness :
  page_property.DateValue.end_
    (@page_property.DateValue.Build_t sample.formats sample.may1 None None)
  = None.
Proof.
  apply (@DateValue_end_absent sample.formats sample.instant
           (@page_property.DateValue.Build_t sample.formats sample.may1
              None None) eq_refl).
  left. reflexivity.
Defined.

(* ================================================================== *)
(** ** Further properties of the unions *)

Lemma choose_In {A : Type} (tag : string)
      (table : list (string * (json -> result A))) (f : json -> result A) :
  pydantic.choose tag table = Some f -> In (tag, f) table.
Proof.
  induction table as [|[t v] table IH]; simpl.
  - discriminate.
  - destruct (String.eqb_spec tag t) as [->|_].
    + intros [= <-]. left. reflexivity.
    + intros Hf. right. exact (IH Hf).
Qed.

(** What a union that validates has done: read a tag, found the class
    registered for it, and validated the whole object as that class. *)
Lemma tagged_union_inv {A : Type}
      (table : list (string * (json -> result A))) (j : json) (v : A) :
  pydantic.tagged_union table j = Ok v ->
  exists (o : obj) (tag : string) (f : json -> result A),
    j = JObj o /\ lookup "type" o = Some (JStr tag)
    /\ In (tag, f) table /\ f j = Ok v.
Proof.
  unfold pydantic.tagged_union.
  destruct j as [| | | | | |o]; try discriminate.
  destruct (lookup "type" o) as [[| | | |tag| |]|] eqn:Htype;
    try discriminate.
  destruct (pydantic.choose tag table) as [f|] eqn:Hf; [|discriminate].
  intros Hv. exists o, tag, f.
  split; [reflexivity|]. split; [exact Htype|].
  split; [exact (choose_In _ _ _ Hf) | exact Hv].
Qed.

Lemma fmap_inv {A B : Type} (f : A -> B) (r : result A) (b : B) :
  fmap f r = Ok b -> exists a, r = Ok a /\ b = f a.
Proof.
  destruct r as [a|e]; cbn; [|discriminate].
  intros [= <-]. eauto.
Qed.

(** Splits the membership of a pair in a table into its entries. *)
Ltac entries Hin :=
  cbn [In] in Hin;
  repeat (destruct Hin as [Hin|Hin];
          [injection Hin as <- <-|]);
  [..|contradiction].

Section unions.
Context `{Formats} `{Entities} `{RichText}.

Import page_property.

(** X13.  The payload of a property lives under the key that is its tag:
    in the object dumped for a value [v], the key [tag v] is bound, the
    one exception being a phone number that is [None] dumped with
    [exclude_none]. *)
Theorem PageProperty_payload_under_tag (exclude_none : bool)
        (v : PageProperty.t) :
  exists o : obj,
    PageProperty.dump exclude_none v = JObj o
    /\ (lookup (PageProperty.tag v) o = None
        <-> exclude_none = true
            /\ exists p, v = PageProperty.PhoneNumber p
                         /\ PhoneNumberProperty.phone_number p = None).
Proof.
  destruct v as [p|p|p|p|p|p|p|p|p|p|p|p|p|p|p|p|p|p|p|p|p|p];
    destruct p as [i ty payload]; destruct i, exclude_none;
    try destruct payload;
    (eexists; split; [reflexivity|]);
    (split;
     [ intros Hl; cbn in Hl;
       first [ discriminate Hl
             | split; [reflexivity | eexists; split; reflexivity] ]
     | intros (Hen & q & Hq & Hnone);
       first [ discriminate Hen
             | discriminate Hq
             | injection Hq as <-; discriminate Hnone
             | reflexivity ] ]).
Qed.

(** X14.  Validation returns the class of the tag: when an object
    validates as a property, the value is of the class whose tag is the
    string bound to [type] in the object. *)
Theorem PageProperty_validate_tag (o : obj) (v : PageProperty.t) :
  PageProperty.validate (JObj o) = Ok v ->
  lookup "type" o = Some (JStr (PageProperty.tag v)).
Proof.
  intros Hv. unfold PageProperty.validate in Hv.
  apply tagged_union_inv in Hv.
  destruct Hv as (o' & tag & f & [= <-] & Htype & Hin & Hf).
  rewrite Htype. clear Htype.
  entries Hin; apply fmap_inv in Hf; destruct Hf as (p & _ & ->);
    reflexivity.
Qed.

(** X15.  The nested union of a formula dispatches on its own [type]: a
    formula value that validates is of the case whose tag the object
    gives; an object whose tag is none of the four cases is rejected for
    its tag, and an object with no [type] is rejected for the lack of
    it. *)
Theorem FormulaData_dispatch (o : obj) :
  (forall v : FormulaData.t,
      FormulaData.validate (JObj o) = Ok v ->
      lookup "type" o = Some (JStr (FormulaData.tag v)))
  /\ (forall tag : string,
         lookup "type" o = Some (JStr tag) ->
         ~ In tag ["boolean"; "date"; "number"; "string"] ->
         FormulaData.validate (JObj o) = Err union_tag_invalid)
  /\ (lookup "type" o = None ->
      FormulaData.validate (JObj o) = Err union_tag_not_found).
Proof.
  split; [|split].
  - intros v Hv. unfold FormulaData.validate in Hv.
    apply tagged_union_inv in Hv.
    destruct Hv as (o' & tag & f & [= <-] & Htype & Hin & Hf).
    rewrite Htype. clear Htype.
    entries Hin; apply fmap_inv in Hf; destruct Hf as (p & _ & ->);
      reflexivity.
  - intros tag Htype Hnot.
    unfold FormulaData.validate, pydantic.tagged_union. rewrite Htype.
    rewrite (choose_unregistered tag FormulaData.table Hnot). reflexivity.
  - intros Htype.
    unfold FormulaData.validate, pydantic.tagged_union. rewrite Htype.
    reflexivity.
Qed.

Lemma validate_literal_ok (table : list string) (j : json) (s : string) :
  pydantic.validate_literal table j = Ok s -> In s table.
Proof.
  destruct j as [| | | |s'| |]; cbn; try discriminate.
  destruct (existsb (String.eqb s') table) eqn:Hex; [|discriminate].
  intros [= <-]. apply existsb_exists in Hex.
  destruct Hex as (x & Hin & Heq). apply String.eqb_eq in Heq.
  subst. exact Hin.
Qed.

Lemma validate_function_ok (o : obj) (s : string) :
  validate_function o = Ok s -> In s RollupFunctionLiteral.
Proof.
  unfold validate_function, pydantic.required.
  destruct (lookup "function" o); [|discriminate].
  apply validate_literal_ok.
Qed.

(** Reads the fields of a class that has validated, one after the
    other. *)
Ltac read_fields :=
  repeat match goal with
         | |- bind ?r _ = Ok _ -> _ =>
             destruct r eqn:?; cbn [bind]; [|discriminate]
         end;
  intros [= <-].

Lemma DateRollupData_function j (d : DateRollupData.t) :
  DateRollupData.validate j = Ok d ->
  In (DateRollupData.function d) RollupFunctionLiteral.
Proof.
  unfold DateRollupData.validate. read_fields.
  eauto using validate_function_ok.
Qed.

Lemma NumberRollupData_function j (d : NumberRollupData.t) :
  NumberRollupData.validate j = Ok d ->
  In (NumberRollupData.function d) RollupFunctionLiteral.
Proof.
  unfold NumberRollupData.validate. read_fields.
  eauto using validate_function_ok.
Qed.

Lemma ArrayRollupData_function j (d : ArrayRollupData.t) :
  ArrayRollupData.validate j = Ok d ->
  In (ArrayRollupData.function d) RollupFunctionLiteral.
Proof.
  unfold ArrayRollupData.validate. read_fields.
  eauto using validate_function_ok.
Qed.

Lemma IncompleteRollupData_function j (d : IncompleteRollupData.t) :
  IncompleteRollupData.validate j = Ok d ->
  In (IncompleteRollupData.function d) RollupFunctionLiteral.
Proof.
  unfold IncompleteRollupData.validate. read_fields.
  eauto using validate_function_ok.
Qed.

Lemma UnsupportedRollupData_function j (d : UnsupportedRollupData.t) :
  UnsupportedRollupData.validate j = Ok d ->
  In (UnsupportedRollupData.function d) RollupFunctionLiteral.
Proof.
  unfold UnsupportedRollupData.validate. read_fields.
  eauto using validate_function_ok.
Qed.

Lemma RollupData_validated (j : json) (v : RollupData.t) :
  RollupData.validate j = Ok v ->
  RollupData.constructible v
  /\ exists o, j = JObj o
               /\ lookup "type" o = Some (JStr (RollupData.tag v)).
Proof.
  intros Hv. unfold RollupData.validate in Hv.
  apply tagged_union_inv in Hv.
  destruct Hv as (o & tag & f & -> & Htype & Hin & Hf).
  unfold RollupData.constructible.
  entries Hin; apply fmap_inv in Hf; destruct Hf as (p & Hp & ->);
    (split; [|eauto]); cbn [RollupData.function].
  - exact (DateRollupData_function _ _ Hp).
  - exact (NumberRollupData_function _ _ Hp).
  - exact (ArrayRollupData_function _ _ Hp).
  - exact (IncompleteRollupData_function _ _ Hp).
  - exact (UnsupportedRollupData_function _ _ Hp).
Qed.

Lemma RollupProperty_validated j (p : RollupProperty.t) :
  RollupProperty.validate j = Ok p ->
  RollupData.constructible (RollupProperty.rollup p).
Proof.
  unfold RollupProperty.validate. read_fields. cbn.
  match goal with
  | Hr : pydantic.required "rollup" _ _ = Ok _ |- _ =>
      unfold pydantic.required in Hr;
      destruct (lookup "rollup" _); [|discriminate Hr];
      exact (proj1 (RollupData_validated _ _ Hr))
  end.
Qed.

Lemma VerificationData_validated j (d : VerificationData.t) :
  VerificationData.validate j = Ok d -> VerificationData.constructible d.
Proof.
  unfold VerificationData.validate, VerificationData.constructible.
  read_fields. cbn.
  match goal with
  | Hs : pydantic.required "state" _ _ = Ok _ |- _ =>
      unfold pydantic.required in Hs;
      destruct (lookup "state" _); [|discriminate Hs];
      exact (validate_literal_ok _ _ _ Hs)
  end.
Qed.

Lemma VerificationProperty_validated j (p : VerificationProperty.t) :
  VerificationProperty.validate j = Ok p ->
  VerificationData.constructible (VerificationProperty.verification p).
Proof.
  unfold VerificationProperty.validate. read_fields. cbn.
  match goal with
  | Hr : pydantic.required "verification" _ _ = Ok _ |- _ =>
      unfold pydantic.required in Hr;
      destruct (lookup "verification" _); [|discriminate Hr];
      exact (VerificationData_validated _ _ Hr)
  end.
Qed.

Lemma PageProperty_validated (j : json) (v : PageProperty.t) :
  PageProperty.validate j = Ok v -> PageProperty.constructible v.
Proof.
  intros Hv. unfold PageProperty.validate in Hv.
  apply tagged_union_inv in Hv.
  destruct Hv as (o & tag & f & -> & _ & Hin & Hf).
  entries Hin; apply fmap_inv in Hf; destruct Hf as (p & Hp & ->);
    cbn [PageProperty.constructible]; try exact I.
  - exact (RollupProperty_validated _ _ Hp).
  - exact (VerificationProperty_validated _ _ Hp).
Qed.

(** X16.  The nested union of a rollup dispatches on its own [type] and
    checks its [function]: a rollup value that validates is of the case
    whose tag the object gives, and its [function] is a member of
    [RollupFunctionLiteral], also for the cases [array], [incomplete] and
    [unsupported], which hold nothing else; an object whose tag is none
    of the five cases is rejected for its tag, and an object with no
    [type] is rejected for the lack of it. *)
Theorem RollupData_dispatch (o : obj) :
  (forall v : RollupData.t,
      RollupData.validate (JObj o) = Ok v ->
      lookup "type" o = Some (JStr (RollupData.tag v))
      /\ In (RollupData.function v) RollupFunctionLiteral)
  /\ (forall tag : string,
         lookup "type" o = Some (JStr tag) ->
         ~ In tag ["date"; "number"; "array"; "incomplete"; "unsupported"] ->
         RollupData.validate (JObj o) = Err union_tag_invalid)
  /\ (lookup "type" o = None ->
      RollupData.validate (JObj o) = Err union_tag_not_found).
Proof.
  split; [|split].
  - intros v Hv. apply RollupData_validated in Hv.
    destruct Hv as (Hc & o' & [= <-] & Htype). split; assumption.
  - intros tag Htype Hnot.
    unfold RollupData.validate, pydantic.tagged_union. rewrite Htype.
    rewrite (choose_unregistered tag RollupData.table Hnot). reflexivity.
  - intros Htype.
    unfold RollupData.validate, pydantic.tagged_union. rewrite Htype.
    reflexivity.
Qed.

(** X17.  Validation returns constructible values only: in every
    property that validates, the [function] of a rollup is a member of
    [RollupFunctionLiteral] and the [state] of a verification is a member
    of [VerificationStateLiteral]. *)
Theorem PageProperty_validate_constructible (j : json) (v : PageProperty.t) :
  PageProperty.validate j = Ok v -> PageProperty.constructible v.
Proof. apply PageProperty_validated. Qed.
End unions.

Section revalidation.
Context `{FormatsLaws} `{EntitiesLaws} `{RichText}
        {RichTextObject_lawful : Lawful RichTextObject}.

Import page_property.

Lemma PageProperty_roundtrip (en : bool) (v : PageProperty.t) :
  PageProperty.constructible v ->
  PageProperty.validate (PageProperty.dump en v) = Ok v.
Proof.
  unfold PageProperty.validate.
  destruct v as [p|p|p|p|p|p|p|p|p|p|p|p|p|p|p|p|p|p|p|p|p|p];
    cbn [PageProperty.dump PageProperty.constructible]; intros Hc.
  - by_class PageProperty.Checkbox p (CheckboxProperty_roundtrip en p).
  - by_class PageProperty.CreatedBy p (CreatedByProperty_roundtrip en p).
  - by_class PageProperty.CreatedTime p (CreatedTimeProperty_roundtrip en p).
  - by_class PageProperty.Date p (DateProperty_roundtrip en p).
  - by_class PageProperty.Email p (EmailProperty_roundtrip en p).
  - by_class PageProperty.Files p (FilesProperty_roundtrip en p).
  - by_class PageProperty.LastEditedBy p (LastEditedByProperty_roundtrip en p).
  - by_class PageProperty.LastEditedTime p (LastEditedTimeProperty_roundtrip en p).
  - by_class PageProperty.MultiSelect p (MultiSelectProperty_roundtrip en p).
  - by_class PageProperty.Number p (NumberProperty_roundtrip en p).
  - by_class PageProperty.People p (PeopleProperty_roundtrip en p).
  - by_class PageProperty.PhoneNumber p (PhoneNumberProperty_roundtrip en p).
  - by_class PageProperty.RichText p (RichTextProperty_roundtrip en p).
  - by_class PageProperty.Select p (SelectProperty_roundtrip en p).
  - by_class PageProperty.Status p (StatusProperty_roundtrip en p).
  - by_class PageProperty.Title p (TitleProperty_roundtrip en p).
  - by_class PageProperty.URL p (URLProperty_roundtrip en p).
  - by_class PageProperty.Formula p (FormulaProperty_roundtrip en p).
  - by_class PageProperty.Relation p (RelationProperty_roundtrip en p).
  - by_class PageProperty.Rollup p (RollupProperty_roundtrip en p Hc).
  - by_class PageProperty.UniqueID p (UniqueIDProperty_roundtrip en p).
  - by_class PageProperty.Verification p (VerificationProperty_roundtrip en p Hc).
Qed.

(** X18.  A validated property survives a dump: when the formats and
    the classes of the other modules round-trip, every value that
    validation has returned, from whatever object, is given back by
    validating its dump; so validating, dumping and validating again gives
    what validating once gave, whether or not the dump leaves out the
    fields that are [None]. *)
Theorem PageProperty_revalidate (exclude_none : bool) (j : json)
        (v : PageProperty.t) :
  PageProperty.validate j = Ok v ->
  PageProperty.validate (PageProperty.dump exclude_none v)
  = PageProperty.validate j.
Proof.
  intros Hv. rewrite Hv.
  apply PageProperty_roundtrip, (PageProperty_validated _ _ Hv).
Qed.
End revalidation.

(** X14 at a checked checkbox. *)
Lemma PageProperty_validate_tag_witness :
  lookup "type" sample.checked_fields
  = Some (JStr (page_property.PageProperty.tag sample.checked_property)).
Proof.
  exact (@PageProperty_validate_tag sample.formats sample.entities
           block.rich_text sample.checked_fields sample.checked_property
           eq_refl).
Defined.

(** X15 at a formula that holds a string and at an object whose tag is
    no case of a formula. *)
Lemma FormulaData_dispatch_witness :
  lookup "type" sample.string_fields
  = Some (JStr (page_property.FormulaData.tag sample.string_formula))
  /\ page_property.FormulaData.validate (H := sample.formats)
       (JObj sample.checked_fields) = Err union_tag_invalid.
Proof.
  split.
  - exact (proj1 (@FormulaData_dispatch sample.formats sample.string_fields)
             sample.string_formula eq_refl).
  - apply (proj1 (proj2 (@FormulaData_dispatch sample.formats
                           sample.checked_fields)) "checkbox").
    + reflexivity.
    + simpl. intuition discriminate.
Defined.

(** X16 at a rollup that sums to 3.5 and at an object whose tag is no
    case of a rollup. *)
Lemma RollupData_dispatch_witness :
  (lookup "type" sample.sum_fields
   = Some (JStr (page_property.RollupData.tag sample.sum_rollup))
   /\ In (page_property.RollupData.function sample.sum_rollup)
         (RollupFunctionLiteral (Entities := sample.entities)))
  /\ page_property.RollupData.validate (H := sample.formats)
       (H0 := sample.entities) (JObj sample.string_fields)
     = Err union_tag_invalid.
Proof.
  split.
  - exact (proj1 (@RollupData_dispatch sample.formats sample.entities
                    sample.sum_fields) sample.sum_rollup eq_refl).
  - apply (proj1 (proj2 (@RollupData_dispatch sample.formats sample.entities
                           sample.string_fields)) "string").
    + reflexivity.
    + simpl. intuition discriminate.
Defined.

(** X17 at a rollup property. *)
Lemma PageProperty_validate_constructible_witness :
  page_property.PageProperty.constructible sample.rollup_property.
Proof.
  exact (@PageProperty_validate_constructible sample.formats sample.entities
           block.rich_text (JObj sample.rollup_fields)
           sample.rollup_property eq_refl).
Defined.

(** X18 at a rollup property. *)
Lemma PageProperty_revalidate_witness :
  page_property.PageProperty.validate
    (page_property.PageProperty.dump true sample.rollup_property)
  = page_property.PageProperty.validate (H := sample.formats)
      (H0 := sample.entities) (H1 := block.rich_text)
      (JObj sample.rollup_fields).
Proof.
  exact (@PageProperty_revalidate sample.formats sample_formats_laws
           sample.entities sample_entities_laws block.rich_text block_lawful
           true (JObj sample.rollup_fields) sample.rollup_property eq_refl).
Defined.

(* ================================================================== *)
(** ** Further round trips *)

Section nested.
Context `{FormatsLaws} `{EntitiesLaws}.

Import page_property.

(** X19.  The values nested in the properties round-trip on their own:
    validating the dump of a date, of a reference to a page, of a unique
    identifier, of a formula value, of a constructible rollup value and of
    a constructible verification gives the value back, whether or not the
    dump leaves out the fields that are [None]. *)
Theorem nested_values_validate_dump (exclude_none : bool) :
  (forall v : DateValue.t,
      DateValue.validate (DateValue.dump exclude_none v) = Ok v)
  /\ (forall v : PageReference.t,
         PageReference.validate (PageReference.dump v) = Ok v)
  /\ (forall v : UniqueIDData.t,
         UniqueIDData.validate (UniqueIDData.dump exclude_none v) = Ok v)
  /\ (forall v : FormulaData.t,
         FormulaData.validate (FormulaData.dump exclude_none v) = Ok v)
  /\ (forall v : RollupData.t,
         RollupData.constructible v ->
         RollupData.validate (RollupData.dump exclude_none v) = Ok v)
  /\ (forall v : VerificationData.t,
         VerificationData.constructible v ->
         VerificationData.validate (VerificationData.dump exclude_none v)
         = Ok v).
Proof.
  repeat split.
  - apply DateValue_roundtrip.
  - apply PageReference_roundtrip.
  - apply UniqueIDData_roundtrip.
  - apply FormulaData_roundtrip.
  - apply RollupData_roundtrip.
  - apply VerificationData_roundtrip.
Qed.
End nested.

(** X19 at a rollup that sums to 3.5. *)
Lemma nested_values_validate_dump_witness :
  page_property.RollupData.validate (H0 := sample.entities)
    (page_property.RollupData.dump true sample.sum_rollup)
  = Ok sample.sum_rollup.
Proof.
  apply (@nested_values_validate_dump sample.formats sample_formats_laws
           sample.entities sample_entities_laws true).
  unfold page_property.RollupData.constructible. simpl. tauto.
Defined.

(** X20.  What [TitleProperty.new] returns is what validation returns:
    when spans round-trip, the title property the factory builds from a
    plain string is given back by validating its dump, and its title is
    the one span that the factory of text spans makes of the string. *)
Theorem TitleProperty_new_validated `{RichText}
        {RichTextObject_lawful : Lawful RichTextObject}
        (exclude_none : bool) (text : string) :
  exists v : page_property.TitleProperty.t,
    page_property.TitleProperty.new text = Ok v
    /\ page_property.TitleProperty.title v = [new_text text]
    /\ page_property.TitleProperty.validate
         (page_property.TitleProperty.dump exclude_none v) = Ok v.
Proof.
  eexists. split; [reflexivity|]. split; [reflexivity|].
  apply TitleProperty_roundtrip.
Qed.

(** X20 at the title "Hello". *)
Lemma TitleProperty_new_validated_witness :
  exists v : page_property.TitleProperty.t (H := block.rich_text),
    page_property.TitleProperty.new "Hello" = Ok v
    /\ page_property.TitleProperty.title v = [block.new_text "Hello"]
    /\ page_property.TitleProperty.validate
         (page_property.TitleProperty.dump false v) = Ok v.
Proof.
  exact (@TitleProperty_new_validated block.rich_text block_lawful
           false "Hello").
Defined.

(* ================================================================== *)
(** ** The optional payload *)

(** X21.  The payload of a phone number is optional: an object with tag
    ["phone_number"] that has no [phone_number] validates as soon as its
    [id] does, into the phone number property that holds [None]. *)
Theorem PhoneNumberProperty_payload_optional `{Formats} `{Entities}
        `{RichText} (o : obj) (id_ : option string) :
  lookup "type" o = Some (JStr "phone_number") ->
  lookup "phone_number" o = None ->
  page_property.validate_id o = Ok id_ ->
  page_property.PageProperty.validate (JObj o)
  = Ok (page_property.PageProperty.PhoneNumber
          {| page_property.PhoneNumberProperty.id := id_;
             page_property.PhoneNumberProperty.type :=
               pydantic.Lit "phone_number";
             page_property.PhoneNumberProperty.phone_number := None |}).
Proof.
  intros Htype Hphone Hid.
  unfold page_property.PageProperty.validate, pydantic.tagged_union.
  rewrite Htype.
  cbn [pydantic.choose page_property.PageProperty.table String.eqb Ascii.eqb
       Bool.eqb].
  unfold page_property.PhoneNumberProperty.validate.
  cbn [pydantic.model_fields bind]. rewrite Hid. cbn [bind].
  unfold page_property.validate_type, pydantic.with_default.
  rewrite Htype, Hphone. reflexivity.
Qed.

(** X21 at a phone number property that gives no phone number. *)
Lemma PhoneNumberProperty_payload_optional_witness :
  page_property.PageProperty.validate (H := sample.formats)
    (H0 := sample.entities) (H1 := block.rich_text)
    (JObj sample.silent_phone)
  = Ok (page_property.PageProperty.PhoneNumber
          {| page_property.PhoneNumberProperty.id := Some "%5Dz%3A";
             page_property.PhoneNumberProperty.type :=
               pydantic.Lit "phone_number";
             page_property.PhoneNumberProperty.phone_number := None |}).
Proof.
  exact (@PhoneNumberProperty_payload_optional sample.formats sample.entities
           block.rich_text sample.silent_phone (Some "%5Dz%3A")
           eq_refl eq_refl eq_refl).
Defined.

(* ================================================================== *)
(** ** [page_size], over every raw value *)

Section page_size_lax.
Context `{Formats} `{RichText}.

Lemma PageSize_accepts (j : json) :
  is_ok (base.validate_PageSize j) = true <-> page_size_accepts j.
Proof.
  assert (Hbounds : forall n : Z,
             is_ok (fmap Some (n' <- pydantic.le 100 n ;; pydantic.gt 0 n'))
             = true <-> 0 < n <= 100).
  { intros n. unfold pydantic.le, pydantic.gt.
    destruct (Z.leb_spec n 100); cbn.
    - destruct (Z.ltb_spec 0 n); cbn; split; intros; try lia;
        try discriminate; reflexivity.
    - split; intros; [discriminate | lia]. }
  unfold base.validate_PageSize, pydantic.nullable.
  destruct j as [|b|n|x|s|l|o]; cbn [pydantic.validate_int bind
                                       page_size_accepts].
  - cbn. tauto.
  - rewrite Hbounds. destruct b; split; intros; try lia; try reflexivity;
      discriminate.
  - apply Hbounds.
  - destruct (pydantic.float_as_int x) as [n|e]; cbn [bind].
    + rewrite Hbounds. split.
      * intros Hn. exists n. split; [reflexivity | exact Hn].
      * intros (m & [= <-] & Hm). exact Hm.
    + cbn. split; [discriminate|]. intros (m & Hm & _). discriminate.
  - destruct (str_as_int s) as [n|]; cbn [bind].
    + rewrite Hbounds. split.
      * intros Hn. exists n. split; [reflexivity | exact Hn].
      * intros (m & [= <-] & Hm). exact Hm.
    + cbn. split; [discriminate|]. intros (m & Hm & _). discriminate.
  - cbn. split; [discriminate | contradiction].
  - cbn. split; [discriminate | contradiction].
Qed.

Lemma PageSize_field_accepts (o : obj) :
  is_ok (pydantic.with_default "page_size" base.validate_PageSize None o)
  = true
  <-> match lookup "page_size" o with
      | None => True
      | Some j => page_size_accepts j
      end.
Proof.
  unfold pydantic.with_default.
  destruct (lookup "page_size" o) as [j|].
  - apply PageSize_accepts.
  - cbn. tauto.
Qed.

(** Settles the rule for one class, once the fields before and after
    [page_size] are known to be valid. *)
Ltac settle_lax :=
  rewrite <- PageSize_field_accepts;
  destruct (pydantic.with_default "page_size" _ _ _); cbn;
  repeat match goal with
         | |- context [bind ?r _] => destruct r; cbn in *; try discriminate
         end;
  tauto.

(** C10, amended.  Each of the four request classes that carry
    [page_size] follows this rule on every object whose other fields are
    valid: the object validates if and only if [page_size] is left out, or
    is null, or is an integer [n] with [0 < n <= 100], or is a value that
    lax mode reads as such an integer ([true], a float with no fractional
    part, a string of an integer).  So 0, a negative integer and an
    integer above 100 make the validation fail, and whatever the raw
    value, a [page_size] that has been validated is [None] or an integer
    [n] with [0 < n <= 100]. *)
Theorem page_size_rule_lax_of_requests :
  (forall o : obj,
      is_ok (pydantic.with_default "start_cursor" base.validate_StartCursor
               None o) = true ->
      page_size_rule_lax api_comments.CreateCommentRequest.validate o)
  /\ (forall o : obj,
         is_ok (pydantic.required "block_id" pydantic.validate_str o) = true ->
         is_ok (pydantic.with_default "start_cursor"
                  base.validate_StartCursor None o) = true ->
         page_size_rule_lax api_comments.RetrieveCommentsRequest.validate o)
  /\ (forall o : obj,
         is_ok (pydantic.with_default "start_cursor"
                  base.validate_StartCursor None o) = true ->
         is_ok (pydantic.required "rich_text"
                  (pydantic.validate_list (decode (A := RichTextObject))) o)
         = true ->
         page_size_rule_lax endpoints_comments.CreateCommentRequest.validate
           o)
  /\ (forall o : obj,
         is_ok (pydantic.required "block_id" (decode (A := UUID)) o) = true ->
         is_ok (pydantic.with_default "start_cursor"
                  base.validate_StartCursor None o) = true ->
         page_size_rule_lax
           endpoints_comments.RetrieveCommentsRequest.validate o)
  /\ (forall (j : json) (size : base.PageSize),
         base.validate_PageSize j = Ok size ->
         match size with
         | Some n => 0 < n <= 100
         | None => True
         end).
Proof.
  split; [|split; [|split; [|split; [|exact PageSize_bounds]]]].
  - intros o Hcursor.
    unfold page_size_rule_lax, api_comments.CreateCommentRequest.validate.
    cbn [pydantic.model_fields bind].
    destruct (pydantic.with_default "start_cursor" _ _ o); [|discriminate].
    cbn [bind]. settle_lax.
  - intros o Hblock Hcursor.
    unfold page_size_rule_lax, api_comments.RetrieveCommentsRequest.validate.
    cbn [pydantic.model_fields bind].
    destruct (pydantic.required "block_id" _ o); [|discriminate].
    destruct (pydantic.with_default "start_cursor" _ _ o); [|discriminate].
    cbn [bind]. settle_lax.
  - intros o Hcursor Htext.
    unfold page_size_rule_lax,
      endpoints_comments.CreateCommentRequest.validate.
    cbn [pydantic.model_fields bind].
    destruct (pydantic.with_default "start_cursor" _ _ o); [|discriminate].
    destruct (pydantic.required "rich_text" _ o); [|discriminate].
    cbn [bind]. settle_lax.
  - intros o Hblock Hcursor.
    unfold page_size_rule_lax,
      endpoints_comments.RetrieveCommentsRequest.validate.
    cbn [pydantic.model_fields bind].
    destruct (pydantic.required "block_id" _ o); [|discriminate].
    destruct (pydantic.with_default "start_cursor" _ _ o); [|discriminate].
    cbn [bind]. settle_lax.
Qed.
End page_size_lax.

(** C10, as stated, fails: a request validates with a [page_size] that
    is neither absent nor an integer: null, which gives no page size;
    [true], which gives 1; the float 50.0 and the string "50", which give
    50. *)
Lemma page_size_not_only_integers :
  fmap api_comments.RetrieveCommentsRequest.page_size
    (api_comments.RetrieveCommentsRequest.validate (H := sample.formats)
       (JObj (sample.comments_with JNull))) = Ok None
  /\ fmap api_comments.RetrieveCommentsRequest.page_size
       (api_comments.RetrieveCommentsRequest.validate (H := sample.formats)
          (JObj (sample.comments_with (JBool true)))) = Ok (Some 1)
  /\ fmap api_comments.RetrieveCommentsRequest.page_size
       (api_comments.RetrieveCommentsRequest.validate (H := sample.formats)
          (JObj (sample.comments_with (JFloat 50)))) = Ok (Some 50)
  /\ fmap api_comments.RetrieveCommentsRequest.page_size
       (api_comments.RetrieveCommentsRequest.validate (H := sample.formats)
          (JObj (sample.comments_with (JStr "50")))) = Ok (Some 50).
Proof. repeat split; vm_compute; reflexivity. Qed.

(** C10, amended, at requests that write their page size as null, as
    100, as the float 50.0, and as 101 and [false], which are refused. *)
Lemma page_size_rule_lax_of_requests_witness :
  is_ok (api_comments.RetrieveCommentsRequest.validate (H := sample.formats)
           (JObj (sample.comments_with JNull))) = true
  /\ is_ok (api_comments.RetrieveCommentsRequest.validate
              (H := sample.formats)
              (JObj (sample.comments_with (JInt 100)))) = true
  /\ is_ok (api_comments.RetrieveCommentsRequest.validate
              (H := sample.formats)
              (JObj (sample.comments_with (JFloat 50)))) = true
  /\ is_ok (api_comments.RetrieveCommentsRequest.validate
              (H := sample.formats)
              (JObj (sample.comments_with (JInt 101)))) <> true
  /\ is_ok (api_comments.RetrieveCommentsRequest.validate
              (H := sample.formats)
              (JObj (sample.comments_with (JBool false)))) <> true.
Proof.
  pose proof (proj1 (proj2 (@page_size_rule_lax_of_requests sample.formats
                              block.rich_text))) as Hrule.
  split; [|split; [|split; [|split]]].
  - apply (Hrule (sample.comments_with JNull) eq_refl eq_refl). exact I.
  - apply (Hrule (sample.comments_with (JInt 100)) eq_refl eq_refl).
    simpl. lia.
  - apply (Hrule (sample.comments_with (JFloat 50)) eq_refl eq_refl).
    exists 50. split; [reflexivity | lia].
  - intros Hok.
    apply (Hrule (sample.comments_with (JInt 101)) eq_refl eq_refl) in Hok.
    simpl in Hok. lia.
  - intros Hok.
    apply (Hrule (sample.comments_with (JBool false)) eq_refl eq_refl)
      in Hok.
    simpl in Hok. discriminate.
Defined.

(* ================================================================== *)
(** ** The kinds of rejection, class by class *)

Lemma classify_cases (e : ErrorType) :
  classify e = ShapeMismatch \/ e = union_tag_invalid.
Proof. destruct e; auto. Qed.

Lemma shape_ok {A : Type} (a : A) : shape_result (Ok a).
Proof. intros e. discriminate. Qed.

Lemma shape_err {A : Type} (e : ErrorType) :
  classify e = ShapeMismatch -> shape_result (Err e : result A).
Proof. intros He e' [= <-]. exact He. Qed.

Lemma shape_bind {A B : Type} (r : result A) (k : A -> result B) :
  shape_result r -> (forall a, shape_result (k a)) -> shape_result (bind r k).
Proof.
  intros Hr Hk. destruct r as [a|e]; cbn.
  - apply Hk.
  - apply shape_err, Hr. reflexivity.
Qed.

Lemma shape_fmap {A B : Type} (f : A -> B) (r : result A) :
  shape_result r -> shape_result (fmap f r).
Proof.
  intros Hr. destruct r as [a|e]; cbn.
  - apply shape_ok.
  - apply shape_err, Hr. reflexivity.
Qed.

Lemma shape_model_fields (j : json) : shape_result (pydantic.model_fields j).
Proof. destruct j; cbn; solve [apply shape_ok | apply shape_err; reflexivity]. Qed.

Lemma shape_required {A : Type} (k : string) (v : json -> result A) (o : obj) :
  shape_only v -> shape_result (pydantic.required k v o).
Proof.
  intros Hv. unfold pydantic.required. destruct (lookup k o).
  - apply Hv.
  - apply shape_err. reflexivity.
Qed.

Lemma shape_with_default {A : Type} (k : string) (v : json -> result A)
      (d : A) (o : obj) :
  shape_only v -> shape_result (pydantic.with_default k v d o).
Proof.
  intros Hv. unfold pydantic.with_default. destruct (lookup k o).
  - apply Hv.
  - apply shape_ok.
Qed.

Lemma shape_str : shape_only pydantic.validate_str.
Proof.
  intros j. destruct j; cbn;
    solve [apply shape_ok | apply shape_err; reflexivity].
Qed.

Lemma shape_bool : shape_only pydantic.validate_bool.
Proof. intros j e. apply validate_bool_error. Qed.

Lemma shape_float_as_int (x : float) : shape_result (pydantic.float_as_int x).
Proof.
  unfold pydantic.float_as_int. destruct (Prim2SF x) as [| | |s m e].
  1-3: solve [apply shape_ok | apply shape_err; reflexivity].
  cbv zeta.
  repeat match goal with
         | |- context [if ?b then _ else _] => destruct b
         end;
    solve [apply shape_ok | apply shape_err; reflexivity].
Qed.

Lemma shape_int `{Formats} : shape_only pydantic.validate_int.
Proof.
  intros j. destruct j as [| | |x|s| |]; cbn;
    try solve [apply shape_ok | apply shape_err; reflexivity].
  - apply shape_float_as_int.
  - destruct (str_as_int s);
      solve [apply shape_ok | apply shape_err; reflexivity].
Qed.

Lemma shape_float `{Formats} : shape_only pydantic.validate_float.
Proof.
  intros j. destruct j as [| | | |s| |]; cbn;
    try solve [apply shape_ok | apply shape_err; reflexivity].
  destruct (str_as_float s);
    solve [apply shape_ok | apply shape_err; reflexivity].
Qed.

Lemma shape_Literal (tag : string) : shape_only (pydantic.validate_Literal tag).
Proof.
  intros j. destruct j as [| | | |s| |]; cbn;
    try solve [apply shape_err; reflexivity].
  destruct (String.eqb s tag);
    solve [apply shape_ok | apply shape_err; reflexivity].
Qed.

Lemma shape_literal (table : list string) :
  shape_only (pydantic.validate_literal table).
Proof.
  intros j. destruct j as [| | | |s| |]; cbn;
    try solve [apply shape_err; reflexivity].
  destruct (existsb (String.eqb s) table);
    solve [apply shape_ok | apply shape_err; reflexivity].
Qed.

Lemma shape_nullable {A : Type} (v : json -> result A) :
  shape_only v -> shape_only (pydantic.nullable v).
Proof.
  intros Hv j. unfold pydantic.nullable.
  destruct j; try (apply shape_fmap, Hv). apply shape_ok.
Qed.

Lemma shape_list {A : Type} (v : json -> result A) :
  shape_only v -> shape_only (pydantic.validate_list v).
Proof.
  intros Hv j. destruct j as [| | | | |items|]; cbn;
    try solve [apply shape_err; reflexivity].
  induction items as [|x items IH]; cbn.
  - apply shape_ok.
  - apply shape_bind; [apply Hv|]. intros b.
    apply shape_bind; [exact IH|]. intros bs. apply shape_ok.
Qed.

Lemma shape_PageSize `{Formats} : shape_only base.validate_PageSize.
Proof.
  unfold base.validate_PageSize. apply shape_nullable. intros j.
  apply shape_bind; [apply shape_int|]. intros n.
  apply shape_bind.
  - unfold pydantic.le. destruct (n <=? 100);
      solve [apply shape_ok | apply shape_err; reflexivity].
  - intros m. unfold pydantic.gt. destruct (0 <? m);
      solve [apply shape_ok | apply shape_err; reflexivity].
Qed.

Lemma choose_none {A : Type} (tag : string)
      (table : list (string * (json -> result A))) :
  pydantic.choose tag table = None -> ~ In tag (map fst table).
Proof.
  induction table as [|[t v] table IH]; simpl.
  - tauto.
  - destruct (String.eqb_spec tag t) as [->|Hne]; [discriminate|].
    intros Hnone [Heq|Hin]; [congruence | exact (IH Hnone Hin)].
Qed.

(** A union whose classes fail with shape mismatches only rejects for an
    unknown variant in one case: its own tag is not registered. *)
Lemma tagged_union_unknown {A : Type}
      (table : list (string * (json -> result A))) (j : json)
      (e : ErrorType) :
  (forall t f, In (t, f) table -> shape_only f) ->
  pydantic.tagged_union table j = Err e ->
  classify e <> ShapeMismatch ->
  e = union_tag_invalid
  /\ exists inner : obj, j = JObj inner /\ unknown_inner_tag table inner.
Proof.
  intros Htable. unfold pydantic.tagged_union.
  destruct j as [| | | | | |inner];
    try (intros [= <-] Hnot; exfalso; apply Hnot; reflexivity).
  destruct (lookup "type" inner) as [x|] eqn:Htype;
    [|intros [= <-] Hnot; exfalso; apply Hnot; reflexivity].
  assert (Hother : (forall t, x <> JStr t) ->
                   (Err union_tag_invalid : result A) = Err e ->
                   e = union_tag_invalid
                   /\ exists inner' : obj,
                        JObj inner = JObj inner'
                        /\ unknown_inner_tag table inner').
  { intros Hx [= <-]. split; [reflexivity|]. exists inner.
    split; [reflexivity|]. exists x. split; [exact Htype|].
    intros t Ht. exfalso. exact (Hx t Ht). }
  destruct x as [| | | |t| |]; try (intros He _; apply Hother;
                                    [discriminate | exact He]).
  destruct (pydantic.choose t table) as [f|] eqn:Hf.
  - intros He Hnot. exfalso. apply Hnot.
    exact (Htable t f (choose_In _ _ _ Hf) _ _ He).
  - intros [= <-] _. split; [reflexivity|]. exists inner.
    split; [reflexivity|]. exists (JStr t). split; [exact Htype|].
    intros t' [= <-]. exact (choose_none _ _ Hf).
Qed.

(** Conversely, an inner tag that is not registered is rejected for an
    unknown variant. *)
Lemma tagged_union_unregistered {A : Type}
      (table : list (string * (json -> result A))) (inner : obj) :
  unknown_inner_tag table inner ->
  pydantic.tagged_union table (JObj inner) = Err union_tag_invalid.
Proof.
  intros (x & Htype & Hx). unfold pydantic.tagged_union. rewrite Htype.
  destruct x as [| | | |t| |]; try reflexivity.
  rewrite (choose_unregistered t table (Hx t eq_refl)). reflexivity.
Qed.

Section shapes.
Context `{FormatsShape} `{EntitiesShape} `{RichText}
        {RichTextObject_shape : ShapeOnly RichTextObject}.

Import page_property.

Lemma shape_id (o : obj) : shape_result (validate_id o).
Proof. apply shape_with_default, shape_nullable, shape_str. Qed.

Lemma shape_type (tag : string) (o : obj) : shape_result (validate_type tag o).
Proof. apply shape_with_default, shape_Literal. Qed.

Lemma shape_function (o : obj) : shape_result (validate_function o).
Proof. apply shape_required, shape_literal. Qed.

(** Goes through the fields of a class: each is read by a validator that
    fails with shape mismatches only. *)
Ltac shape_fields lemmas :=
  intros ?;
  repeat (apply shape_bind; [|intros ?]);
  first [ apply shape_ok
        | apply shape_model_fields
        | apply shape_id
        | apply shape_type
        | apply shape_function
        | (first [apply shape_required | apply shape_with_default];
           repeat first [ apply shape_nullable | apply shape_list ];
           first [ apply shape_str | apply shape_bool | apply shape_int
                 | apply shape_float | apply shape_literal
                 | apply decode_shape | lemmas ]) ].

Lemma CheckboxProperty_shape : shape_only CheckboxProperty.validate.
Proof. unfold CheckboxProperty.validate. shape_fields ltac:(fail). Qed.

Lemma CreatedByProperty_shape : shape_only CreatedByProperty.validate.
Proof. unfold CreatedByProperty.validate. shape_fields ltac:(fail). Qed.

Lemma CreatedTimeProperty_shape : shape_only CreatedTimeProperty.validate.
Proof. unfold CreatedTimeProperty.validate. shape_fields ltac:(fail). Qed.

Lemma DateValue_shape : shape_only DateValue.validate.
Proof. unfold DateValue.validate. shape_fields ltac:(fail). Qed.

Lemma DateProperty_shape : shape_only DateProperty.validate.
Proof. unfold DateProperty.validate. shape_fields ltac:(exact DateValue_shape). Qed.

Lemma EmailProperty_shape : shape_only EmailProperty.validate.
Proof. unfold EmailProperty.validate. shape_fields ltac:(fail). Qed.

Lemma FilesProperty_shape : shape_only FilesProperty.validate.
Proof. unfold FilesProperty.validate. shape_fields ltac:(fail). Qed.

Lemma BooleanFormulaData_shape : shape_only BooleanFormulaData.validate.
Proof. unfold BooleanFormulaData.validate. shape_fields ltac:(fail). Qed.

Lemma DateFormulaData_shape : shape_only DateFormulaData.validate.
Proof. unfold DateFormulaData.validate. shape_fields ltac:(exact DateValue_shape). Qed.

Lemma NumberFormulaData_shape : shape_only NumberFormulaData.validate.
Proof. unfold NumberFormulaData.validate. shape_fields ltac:(fail). Qed.

Lemma StringFormulaData_shape : shape_only StringFormulaData.validate.
Proof. unfold StringFormulaData.validate. shape_fields ltac:(fail). Qed.

Lemma LastEditedByProperty_shape : shape_only LastEditedByProperty.validate.
Proof. unfold LastEditedByProperty.validate. shape_fields ltac:(fail). Qed.

Lemma LastEditedTimeProperty_shape : shape_only LastEditedTimeProperty.validate.
Proof. unfold LastEditedTimeProperty.validate. shape_fields ltac:(fail). Qed.

Lemma MultiSelectProperty_shape : shape_only MultiSelectProperty.validate.
Proof. unfold MultiSelectProperty.validate. shape_fields ltac:(fail). Qed.

Lemma NumberProperty_shape : shape_only NumberProperty.validate.
Proof. unfold NumberProperty.validate. shape_fields ltac:(fail). Qed.

Lemma PeopleProperty_shape : shape_only PeopleProperty.validate.
Proof. unfold PeopleProperty.validate. shape_fields ltac:(fail). Qed.

Lemma PhoneNumberProperty_shape : shape_only PhoneNumberProperty.validate.
Proof. unfold PhoneNumberProperty.validate. shape_fields ltac:(fail). Qed.

Lemma PageReference_shape : shape_only PageReference.validate.
Proof. unfold PageReference.validate. shape_fields ltac:(fail). Qed.

Lemma RelationProperty_shape : shape_only RelationProperty.validate.
Proof. unfold RelationProperty.validate. shape_fields ltac:(exact PageReference_shape). Qed.

Lemma DateRollupData_shape : shape_only DateRollupData.validate.
Proof. unfold DateRollupData.validate. shape_fields ltac:(exact DateValue_shape). Qed.

Lemma NumberRollupData_shape : shape_only NumberRollupData.validate.
Proof. unfold NumberRollupData.validate. shape_fields ltac:(fail). Qed.

Lemma ArrayRollupData_shape : shape_only ArrayRollupData.validate.
Proof. unfold ArrayRollupData.validate. shape_fields ltac:(fail). Qed.

Lemma IncompleteRollupData_shape : shape_only IncompleteRollupData.validate.
Proof. unfold IncompleteRollupData.validate. shape_fields ltac:(fail). Qed.

Lemma UnsupportedRollupData_shape : shape_only UnsupportedRollupData.validate.
Proof. unfold UnsupportedRollupData.validate. shape_fields ltac:(fail). Qed.

Lemma RichTextProperty_shape : shape_only RichTextProperty.validate.
Proof. unfold RichTextProperty.validate. shape_fields ltac:(fail). Qed.

Lemma SelectProperty_shape : shape_only SelectProperty.validate.
Proof. unfold SelectProperty.validate. shape_fields ltac:(fail). Qed.

Lemma StatusProperty_shape : shape_only StatusProperty.validate.
Proof. unfold StatusProperty.validate. shape_fields ltac:(fail). Qed.

Lemma TitleProperty_shape : shape_only TitleProperty.validate.
Proof. unfold TitleProperty.validate. shape_fields ltac:(fail). Qed.

Lemma URLProperty_shape : shape_only URLProperty.validate.
Proof. unfold URLProperty.validate. shape_fields ltac:(fail). Qed.

Lemma UniqueIDData_shape : shape_only UniqueIDData.validate.
Proof. unfold UniqueIDData.validate. shape_fields ltac:(fail). Qed.

Lemma UniqueIDProperty_shape : shape_only UniqueIDProperty.validate.
Proof. unfold UniqueIDProperty.validate. shape_fields ltac:(exact UniqueIDData_shape). Qed.

Lemma VerificationData_shape : shape_only VerificationData.validate.
Proof. unfold VerificationData.validate. shape_fields ltac:(exact DateValue_shape). Qed.

Lemma VerificationProperty_shape : shape_only VerificationProperty.validate.
Proof. unfold VerificationProperty.validate. shape_fields ltac:(exact VerificationData_shape). Qed.

Lemma FormulaData_table_shape (t : string) (f : json -> result FormulaData.t) :
  In (t, f) FormulaData.table -> shape_only f.
Proof.
  intros Hin j. entries Hin; apply shape_fmap.
  - apply BooleanFormulaData_shape.
  - apply DateFormulaData_shape.
  - apply NumberFormulaData_shape.
  - apply StringFormulaData_shape.
Qed.

Lemma RollupData_table_shape (t : string) (f : json -> result RollupData.t) :
  In (t, f) RollupData.table -> shape_only f.
Proof.
  intros Hin j. entries Hin; apply shape_fmap.
  - apply DateRollupData_shape.
  - apply NumberRollupData_shape.
  - apply ArrayRollupData_shape.
  - apply IncompleteRollupData_shape.
  - apply UnsupportedRollupData_shape.
Qed.

(** A property whose payload is a nested union: the fields before the
    payload fail with shape mismatches only, and the payload fails for an
    unknown variant only when its own tag is not registered. *)
Lemma nested_payload_unknown {A B : Type} (tag : string)
      (table : list (string * (json -> result A)))
      (k : option string -> pydantic.Literal tag -> A -> result B) (o : obj)
      (e : ErrorType) :
  (forall t f, In (t, f) table -> shape_only f) ->
  (forall i ty a, shape_result (k i ty a)) ->
  (id_ <- validate_id o ;;
   type_ <- validate_type tag o ;;
   payload <- pydantic.required tag (pydantic.tagged_union table) o ;;
   k id_ type_ payload) = Err e ->
  classify e <> ShapeMismatch ->
  e = union_tag_invalid
  /\ exists inner : obj,
       lookup tag o = Some (JObj inner) /\ unknown_inner_tag table inner.
Proof.
  intros Htable Hk.
  destruct (validate_id o) as [i|e0] eqn:Hid; cbn [bind];
    [|intros [= <-] Hnot; exfalso; exact (Hnot (shape_id o _ Hid))].
  destruct (validate_type tag o) as [ty|e0] eqn:Hty; cbn [bind];
    [|intros [= <-] Hnot; exfalso; exact (Hnot (shape_type tag o _ Hty))].
  unfold pydantic.required.
  destruct (lookup tag o) as [j|];
    [|intros [= <-] Hnot; exfalso; apply Hnot; reflexivity].
  destruct (pydantic.tagged_union table j) as [a|e0] eqn:Hu; cbn [bind].
  - intros He Hnot. exfalso. exact (Hnot (Hk i ty a _ He)).
  - intros [= <-] Hnot.
    destruct (tagged_union_unknown table j e0 Htable Hu Hnot)
      as (-> & inner & -> & Hinner).
    split; [reflexivity|]. exists inner. split; [reflexivity | exact Hinner].
Qed.

Lemma fmap_err_inv {A B : Type} (f : A -> B) (r : result A) (e : ErrorType) :
  fmap f r = Err e -> r = Err e.
Proof. destruct r; cbn; [discriminate | intros [= <-]; reflexivity]. Qed.

End shapes.

(** The sample instance fails with shape mismatches only. *)
Lemma text_shape (ok : string -> bool) :
  ShapeOnly (sample.text ok) (H := sample.text_codec ok).
Proof.
  intros j e. destruct j as [| | | |s| |]; cbn;
    try (intros [= <-]; reflexivity).
  assert (Hgen : forall (b : bool) (q : ok s = b),
             (if b as b' return ok s = b' -> result (sample.text ok)
              then fun q' => Ok {| sample.chars := s; sample.chars_ok := q' |}
              else fun _ => Err (value_error "malformed")) q = Err e ->
             classify e = ShapeMismatch).
  { intros b q. destruct b; [discriminate|]. intros [= <-]. reflexivity. }
  apply Hgen.
Qed.

Lemma named_shape : ShapeOnly sample.named (H := sample.named_codec).
Proof.
  intros j. cbn. unfold sample.validate_named.
  apply shape_bind; [apply shape_model_fields|]. intros o.
  apply shape_bind; [apply shape_required, shape_str|]. intros n.
  apply shape_ok.
Qed.

Lemma block_shape : ShapeOnly block.RichTextObject (H := block.codec).
Proof.
  intros j. cbn. unfold block.validate.
  apply shape_bind; [apply shape_model_fields|]. intros o.
  apply shape_bind; [apply shape_with_default, shape_Literal|]. intros ty.
  apply shape_bind.
  - apply shape_required. intros j'. unfold block.validate_Text.
    apply shape_bind; [apply shape_model_fields|]. intros o'.
    apply shape_bind; [apply shape_required, shape_str|]. intros c.
    apply shape_bind;
      [apply shape_with_default, shape_nullable, shape_str|].
    intros l. apply shape_ok.
  - intros t.
    apply shape_bind.
    + apply shape_with_default, shape_nullable. intros j'.
      apply shape_model_fields.
    + intros a. apply shape_ok.
Qed.

Lemma sample_formats_shape : FormatsShape (H := sample.formats).
Proof. split; apply text_shape. Qed.

Lemma sample_entities_shape : EntitiesShape (H := sample.entities).
Proof. split; apply named_shape. Qed.


